(** * Admission planning and capacity scheduling policies

    A shallow embedding of the three planner classes of the repository
    ([HeuristicPlanner.py], [OptimizedPlanner.py], [OptimizedPlanner2.0.py])
    and the properties of their [plan] and [schedule] callbacks.

    Simulation time is measured in hours and may be fractional; it is
    modelled by exact rationals [Q].  Python dictionaries used as maps are
    [gmap]s; dictionaries that are iterated keep their insertion order and
    are association lists. *)

From Stdlib Require Import QArith Qround Lqa ZArith Lia List Bool String.
From stdpp Require Import gmap strings sorting.
Import ListNotations.

Local Open Scope Z_scope.

(** ** Python arithmetic on numbers *)

Module Py.

Definition ltb (x y : Q) : bool := negb (Qle_bool y x).

(** [x // m] for a positive [m]: the floor of the quotient. *)
Definition floordiv (x m : Q) : Z := Qfloor (x / m).

(** [x % m] for a positive [m]: the remainder has the sign of [m]. *)
Definition mod_ (x m : Q) : Q := (x - m * inject_Z (floordiv x m))%Q.

(** [int(x)]: truncation towards zero. *)
Definition int (x : Q) : Z := if Qle_bool 0 x then Qfloor x else Qceiling x.

(** [round(x)]: the nearest integer, a tie going to the even one. *)
Definition round (x : Q) : Z :=
  let f := Qfloor x in
  match (x - inject_Z f ?= 1 # 2)%Q with
  | Lt => f
  | Gt => f + 1
  | Eq => if Z.even f then f else f + 1
  end.

(** [max(a, b)]: the first argument wins a tie. *)
Definition max (a b : Q) : Q := if ltb a b then b else a.

(** [range(n)]. *)
Definition range (n : nat) : list Z := map Z.of_nat (seq 0 n).

End Py.

(** ** Resource types and capacity entries *)

(** [problems.ResourceType], as the docstring of [HeuristicPlanner.schedule]
  lists it. *)
Inductive ResourceType := OR | A_BED | B_BED | INTAKE | ER_PRACTITIONER.

#[global] Instance ResourceType_eq_dec : EqDecision ResourceType.
Proof. solve_decision. Defined.

(** A triple [(type, time, number)] returned by [schedule]. *)
Definition capacity_entry : Type := ResourceType * Q * Z.

(** A dictionary literal keyed by resource type, in insertion order. *)
Definition res_table : Type := list (ResourceType * Z).

(** [d.get(res_type, 0)]. *)
Fixpoint table_get (d : res_table) (res_type : ResourceType) : Z :=
match d with
| [] => 0
| (k, v) :: d' => if decide (k = res_type) then v else table_get d' res_type
end.

(** The maximum numbers of resources (5, 30, 40, 4, 9). *)
Definition default_max : res_table :=
[(OR, 5); (A_BED, 30); (B_BED, 40); (INTAKE, 4); (ER_PRACTITIONER, 9)].

Definition max_of (res_type : ResourceType) : Z := table_get default_max res_type.

(** [int(simulation_time % 24)]. *)
Definition hour_of_day (simulation_time : Q) : Z :=
  Py.int (Py.mod_ simulation_time 24).

(** [int((simulation_time // 24) % 7)]: the quotient is a whole number, on
    which [%] is the integer remainder. *)
Definition day_of_week (simulation_time : Q) : Z :=
  Py.int (inject_Z (Py.floordiv simulation_time 24 mod 7)).

(** ** The schedule of the two optimized planners

  The bodies of [OptimizedPlanner.schedule] in [OptimizedPlanner.py] and
  [OptimizedPlanner2.0.py] are the same text except for the helper
  [get_current], which is a parameter here. *)

Module ScheduleBody.
Section WithCurrent.

Variable get_current : Q -> ResourceType -> Z.

Definition weekday_morning_res : res_table :=
  [(OR, 3); (A_BED, 25); (B_BED, 40); (INTAKE, 4); (ER_PRACTITIONER, 3)].
Definition weekday_afternoon_res : res_table :=
  [(OR, 3); (A_BED, 25); (B_BED, 40); (INTAKE, 4); (ER_PRACTITIONER, 3)].
Definition weekend_morning_res : res_table :=
  [(OR, 2); (A_BED, 13); (B_BED, 40); (INTAKE, 3); (ER_PRACTITIONER, 6)].
Definition weekend_afternoon_res : res_table :=
  [(OR, 2); (A_BED, 13); (B_BED, 40); (INTAKE, 2); (ER_PRACTITIONER, 6)].

Definition morning_res (target_day : Z) : res_table :=
  if target_day <? 5 then weekday_morning_res else weekend_morning_res.
Definition afternoon_res (target_day : Z) : res_table :=
  if target_day <? 5 then weekday_afternoon_res else weekend_afternoon_res.

(** One [for res_type, count in table.items()] loop at the time [time]. *)
Definition apply_block (week_cutoff time : Q) (table : res_table)
  : list capacity_entry :=
  flat_map
    (fun '(res_type, count) =>
       if Py.ltb time week_cutoff then
         let current := get_current time res_type in
         if count >? current then [(res_type, time, count)] else []
       else [(res_type, time, count)])
    table.

(** The body of the loop over [day_offset]. *)
Definition schedule_day (day_of_week : Z) (next_day week_cutoff : Q)
    (day_offset : Z) : list capacity_entry :=
  let target_day := (day_of_week + day_offset + 1) mod 7 in
  let target_date := (next_day + inject_Z (day_offset * 24))%Q in
  let morning := (target_date + 8)%Q in
  let afternoon := (target_date + 14)%Q in
  apply_block week_cutoff morning (morning_res target_day)
  ++ apply_block week_cutoff afternoon (afternoon_res target_day).

Definition schedule (simulation_time : Q) : list capacity_entry :=
  let hour_of_day := hour_of_day simulation_time in
  let day_of_week := day_of_week simulation_time in
  if negb (hour_of_day =? 18) then []
  else
    let next_day := (simulation_time + inject_Z (24 - hour_of_day))%Q in
    let week_cutoff := (simulation_time + 158)%Q in
    flat_map (schedule_day day_of_week next_day week_cutoff) (Py.range 14).

End WithCurrent.
End ScheduleBody.


(** ** Shared data of the planners

    Case identifiers are the integers the simulation hands out: [nat]. *)

(** The exceptions [plan] can raise: reading a local variable that no
    statement has assigned yet. *)
Inductive exn := UnboundLocalError (name : string).

(** A pair [(case_id, admission_time)] returned by the optimized planners,
    whose admission times went through [round]. *)
Definition plan_entry : Type := nat * Z.

(** A replan candidate [(case_id, priority, wait_time)]. *)
Definition candidate : Type := nat * Z * Q.

(** The attributes [OptimizedPlanner.__init__] creates (both files). *)
Record Planner := mkPlanner {
  patient_diagnoses : gmap nat string;
  patient_first_plan : gmap nat Q;
  last_replanned : gmap nat Q
}.

Definition fresh_planner : Planner := mkPlanner ∅ ∅ ∅.

(** [diagnosis in [...]], where [diagnosis] may be [None]. *)
Definition diag_in (diagnosis : option string) (codes : list string) : bool :=
  match diagnosis with
  | Some d => existsb (String.eqb d) codes
  | None => false
  end.

Definition codes_B12 : list string := ["B1"; "B2"]%string.
Definition codes_A34_B34 : list string := ["A3"; "A4"; "B3"; "B4"]%string.

(** [list.sort] and [sorted] are stable.  [before y x] says that the key of
    [y] is strictly ahead of the key of [x] in the requested order. *)
Section StableSort.
Context {A : Type} (before : A -> A -> bool).

Fixpoint insert_sorted (x : A) (l : list A) : list A :=
  match l with
  | [] => [x]
  | y :: l' => if before y x then y :: insert_sorted x l' else x :: y :: l'
  end.

Definition stable_sort (l : list A) : list A := fold_right insert_sorted [] l.

End StableSort.

(** The key [(x[1], -x[2])] of the replan sort, compared as tuples. *)
Definition candidate_before (y x : candidate) : bool :=
  let '(_, py, wy) := y in
  let '(_, px, wx) := x in
  (py <? px) || ((py =? px) && Py.ltb (- wy) (- wx)).

(** [if case_id not in self.patient_first_plan: ... = simulation_time]. *)
Definition record_first_plan (simulation_time : Q) (self : Planner)
    (case_id : nat) : Planner :=
  match patient_first_plan self !! case_id with
  | Some _ => self
  | None =>
      mkPlanner (patient_diagnoses self)
        (<[case_id := simulation_time]> (patient_first_plan self))
        (last_replanned self)
  end.

(** [self.last_replanned[case_id] = simulation_time]. *)
Definition record_replanned (simulation_time : Q) (self : Planner)
    (case_id : nat) : Planner :=
  mkPlanner (patient_diagnoses self) (patient_first_plan self)
    (<[case_id := simulation_time]> (last_replanned self)).

(** [for day_offset in range(14): target_day = (day_of_week + day_offset + 1) % 7],
    started with the binding [target_day] has before the loop. *)
Definition target_day_loop (day_of_week : Z) (target_day : option Z) : option Z :=
  fold_left
    (fun _ day_offset => Some ((day_of_week + day_offset + 1) mod 7))
    (Py.range 14) target_day.

(** The priority of a new case; the same branches in both optimized files. *)
Definition new_priority (target_day : Z) (diagnosis : option string) : Z :=
  if target_day <? 5 then
    if diag_in diagnosis codes_B12 then 1
    else if diag_in diagnosis codes_A34_B34 then 0
    else 2
  else
    if diag_in diagnosis codes_B12 then 0
    else if diag_in diagnosis codes_A34_B34 then 1
    else 2.

(** The loops of the replanning half, which the two optimized files share
    up to the priority branches, the cap and the names that may be unbound. *)
Section Replanning.

Variable replan_priority : Z -> option string -> Q -> Z.

(** [for case_id in cases_to_replan: ...]: the cooldown test, then the
    priority, which reads [target_day]. *)
Fixpoint select_replans (self : Planner) (target_day : option Z)
    (simulation_time : Q) (cases_to_replan : list nat) : exn + list candidate :=
  match cases_to_replan with
  | [] => inr []
  | case_id :: rest =>
      let diagnosis := patient_diagnoses self !! case_id in
      let wait_time :=
        (simulation_time
         - default simulation_time (patient_first_plan self !! case_id))%Q in
      let last_replanned := default 0%Q (last_replanned self !! case_id) in
      let time_since_replan := (simulation_time - last_replanned)%Q in
      if Py.ltb time_since_replan 24 then
        select_replans self target_day simulation_time rest
      else
        match target_day with
        | None => inl (UnboundLocalError "target_day")
        | Some target_day_v =>
            let priority := replan_priority target_day_v diagnosis wait_time in
            match select_replans self target_day simulation_time rest with
            | inl e => inl e
            | inr replan_cases => inr ((case_id, priority, wait_time) :: replan_cases)
            end
        end
  end.

(** One iteration of [for i in range(max_replans)]: the entries appended so
    far are the accumulator; an exception ends the loop. *)
Definition emit_step (base_time : option Q) (simulation_time : Q)
    (replan_cases : list candidate)
    (acc : Planner * (exn + list plan_entry)) (i : nat)
    : Planner * (exn + list plan_entry) :=
  let '(self, r) := acc in
  match r with
  | inl _ => acc
  | inr planned =>
      match replan_cases !! i with
      | None => acc
      | Some (case_id, _, _) =>
          match base_time with
          | None => (self, inl (UnboundLocalError "base_time"))
          | Some base_time_v =>
              let admission_time := (base_time_v + inject_Z (Z.of_nat i))%Q in
              (record_replanned simulation_time self case_id,
               inr (planned ++ [(case_id, Py.round admission_time)]))
          end
      end
  end.

(** [max_replans = min(cap, len(replan_cases))] and the loop over it. *)
Definition emit_replans (cap : nat) (self : Planner) (base_time : option Q)
    (simulation_time : Q) (replan_cases : list candidate)
    : Planner * (exn + list plan_entry) :=
  let max_replans := Nat.min cap (length replan_cases) in
  fold_left (emit_step base_time simulation_time replan_cases)
    (seq 0 max_replans) (self, inr []).

End Replanning.

(** ** [OptimizedPlanner2.0.py] *)

Module OptimizedPlanner2.

(** The local variables the first loop of [plan] leaves behind; a name is
    [None] while no statement has assigned it. *)
Record locals := mkLocals {
  base_time : option Q;
  target_day : option Z;
  new_cases : list (nat * Z)
}.

(** The body of [for case_id in cases_to_plan].  The loop over
    [range(14)] always leaves [target_day] bound. *)
Definition plan_case (simulation_time : Q) (acc : Planner * locals)
    (case_id : nat) : Planner * locals :=
  let '(self, loc) := acc in
  let self := record_first_plan simulation_time self case_id in
  let base_time := (simulation_time + 24)%Q in
  let diagnosis := patient_diagnoses self !! case_id in
  let day_of_week := day_of_week simulation_time in
  let target_day := target_day_loop day_of_week (target_day loc) in
  match target_day with
  | None => (self, mkLocals (Some base_time) None (new_cases loc))
  | Some target_day_v =>
      let priority := new_priority target_day_v diagnosis in
      (self,
       mkLocals (Some base_time) target_day
         (new_cases loc ++ [(case_id, priority)]))
  end.

Definition plan_loop (self : Planner) (cases_to_plan : list nat)
    (simulation_time : Q) : Planner * locals :=
  fold_left (plan_case simulation_time) cases_to_plan
    (self, mkLocals None None []).

(** [for i, (case_id, priority) in enumerate(new_cases)], from index [i]. *)
Fixpoint assign_new (base_time : option Q) (simulation_time : Q) (i : nat)
    (new_cases : list (nat * Z)) : exn + list plan_entry :=
  match new_cases with
  | [] => inr []
  | (case_id, priority) :: rest =>
      match base_time with
      | None => inl (UnboundLocalError "base_time")
      | Some base_time_v =>
          let step := (inject_Z (Z.of_nat i) * (1 # 4))%Q in
          let admission_time :=
            if priority =? 0 then (base_time_v + step)%Q
            else if priority =? 1 then (base_time_v + 2 + step)%Q
            else (base_time_v + 4 + step)%Q in
          let admission_time :=
            Py.max admission_time (simulation_time + 24)%Q in
          match assign_new base_time simulation_time (S i) rest with
          | inl e => inl e
          | inr planned => inr ((case_id, Py.round admission_time) :: planned)
          end
      end
  end.

Definition replan_priority (target_day : Z) (diagnosis : option string)
    (wait_time : Q) : Z :=
  if target_day <? 5 then
    if diag_in diagnosis codes_B12 || Py.ltb 30 wait_time then 0
    else if diag_in diagnosis codes_A34_B34 then 1
    else 2
  else
    if diag_in diagnosis codes_B12 || Py.ltb 30 wait_time then 1
    else if diag_in diagnosis codes_A34_B34 then 0
    else 2.

(** [plan], with the entries of the new cases and the entries appended by
    the replanning loop kept apart. *)
Definition plan_parts (self : Planner) (cases_to_plan cases_to_replan : list nat)
    (simulation_time : Q)
    : Planner * (exn + (list plan_entry * list plan_entry)) :=
  let '(self, loc) := plan_loop self cases_to_plan simulation_time in
  match assign_new (base_time loc) simulation_time 0 (new_cases loc) with
  | inl e => (self, inl e)
  | inr planned_cases =>
      match select_replans replan_priority self (target_day loc)
              simulation_time cases_to_replan with
      | inl e => (self, inl e)
      | inr replan_cases =>
          let replan_cases := stable_sort candidate_before replan_cases in
          match emit_replans 35 self (base_time loc) simulation_time
                  replan_cases with
          | (self, inl e) => (self, inl e)
          | (self, inr replanned) => (self, inr (planned_cases, replanned))
          end
      end
  end.

(** [plan]: the list [planned_cases] it returns, or the exception. *)
Definition plan (self : Planner) (cases_to_plan cases_to_replan : list nat)
    (simulation_time : Q) : Planner * (exn + list plan_entry) :=
  match plan_parts self cases_to_plan cases_to_replan simulation_time with
  | (self, inl e) => (self, inl e)
  | (self, inr (planned_cases, replanned)) =>
      (self, inr (planned_cases ++ replanned))
  end.

(** [get_current] ignores its time and answers the maximum of the type. *)
Definition get_current (time : Q) (res_type : ResourceType) : Z :=
  table_get default_max res_type.

(** [schedule] reads and writes no attribute of the planner. *)
Definition schedule (self : Planner) (simulation_time : Q)
    : Planner * list capacity_entry :=
  (self, ScheduleBody.schedule get_current simulation_time).

(** What [report] reads of a process element: its [data] attribute, [None]
    or a dictionary; the values the planner looks at are strings. *)
Record Element := mkElement {
  data : option (gmap string string)
}.

(** The exception [report] can raise: subscripting a dictionary with a key
    it lacks. *)
Inductive report_exn := KeyError (key : string).

(** [report].  The two reporter callbacks write to collaborators, not to the
    planner.  [element] may be [None]; an empty dictionary and an empty
    string are falsy. *)
Definition report (self : Planner) (case_id : nat) (element : option Element)
    : report_exn + Planner :=
  match element with
  | None => inr self
  | Some el =>
      match data el with
      | None => inr self
      | Some d =>
          if decide (d = ∅) then inr self
          else
            match d !! "diagnosis"%string with
            | None => inl (KeyError "diagnosis")
            | Some v =>
                if String.eqb v "" then inr self
                else
                  inr (mkPlanner (<[case_id := v]> (patient_diagnoses self))
                         (patient_first_plan self) (last_replanned self))
            end
      end
  end.

End OptimizedPlanner2.

(** ** [OptimizedPlanner.py] *)

Module OptimizedPlanner.

(** [for case_id in cases_to_plan: diagnosis = ...get(case_id, None)]: the
    loop only rebinds [case_id] and [diagnosis]; both are unbound ([None])
    when [cases_to_plan] is empty. *)
Definition diagnosis_loop (self : Planner) (cases_to_plan : list nat)
    : option (nat * option string) :=
  fold_left
    (fun _ case_id => Some (case_id, patient_diagnoses self !! case_id))
    cases_to_plan None.

(** The statements after that loop, up to [new_cases.sort]: they run once
    per call and read [diagnosis] and [case_id]. *)
Definition new_cases_of (self : Planner) (cases_to_plan : list nat)
    (simulation_time : Q) : exn + (Z * list (nat * Z)) :=
  let bound := diagnosis_loop self cases_to_plan in
  let day_of_week := day_of_week simulation_time in
  match target_day_loop day_of_week None with
  | None => inl (UnboundLocalError "target_day")
  | Some target_day =>
      match bound with
      | None => inl (UnboundLocalError "diagnosis")
      | Some (case_id, diagnosis) =>
          let priority := new_priority target_day diagnosis in
          let new_cases := [] ++ [(case_id, priority)] in
          inr (target_day,
               stable_sort (fun y x : nat * Z => snd y <? snd x) new_cases)
      end
  end.

(** [for i, (case_id, priority) in enumerate(new_cases)], from index [i]. *)
Fixpoint assign_new (base_time simulation_time : Q) (i : nat)
    (new_cases : list (nat * Z)) : list plan_entry :=
  match new_cases with
  | [] => []
  | (case_id, priority) :: rest =>
      let step := (inject_Z (Z.of_nat i) * (1 # 2))%Q in
      let admission_time :=
        if priority =? 0 then (base_time + step)%Q
        else if priority =? 1 then (base_time + 2 + step)%Q
        else (base_time + 4 + step)%Q in
      let admission_time := Py.max admission_time (simulation_time + 24)%Q in
      (case_id, Py.round admission_time)
        :: assign_new base_time simulation_time (S i) rest
  end.

Definition replan_priority (target_day : Z) (diagnosis : option string)
    (wait_time : Q) : Z :=
  if target_day >? 4 then
    if diag_in diagnosis codes_B12 || Py.ltb 30 wait_time then 0
    else if diag_in diagnosis codes_A34_B34 then 1
    else 2
  else
    if diag_in diagnosis codes_B12 || Py.ltb 30 wait_time then 1
    else if diag_in diagnosis codes_A34_B34 then 0
    else 2.

(** [plan], with the entries of the new cases and the entries appended by
    the replanning loop kept apart. *)
Definition plan_parts (self : Planner) (cases_to_plan cases_to_replan : list nat)
    (simulation_time : Q)
    : Planner * (exn + (list plan_entry * list plan_entry)) :=
  let self := fold_left (record_first_plan simulation_time) cases_to_plan self in
  let base_time := (simulation_time + 24)%Q in
  match new_cases_of self cases_to_plan simulation_time with
  | inl e => (self, inl e)
  | inr (target_day, new_cases) =>
      let planned_cases := assign_new base_time simulation_time 0 new_cases in
      match select_replans replan_priority self (Some target_day)
              simulation_time cases_to_replan with
      | inl e => (self, inl e)
      | inr replan_cases =>
          let replan_cases := stable_sort candidate_before replan_cases in
          match emit_replans 10 self (Some base_time) simulation_time
                  replan_cases with
          | (self, inl e) => (self, inl e)
          | (self, inr replanned) => (self, inr (planned_cases, replanned))
          end
      end
  end.

(** [plan]: the list [planned_cases] it returns, or the exception. *)
Definition plan (self : Planner) (cases_to_plan cases_to_replan : list nat)
    (simulation_time : Q) : Planner * (exn + list plan_entry) :=
  match plan_parts self cases_to_plan cases_to_replan simulation_time with
  | (self, inl e) => (self, inl e)
  | (self, inr (planned_cases, replanned)) =>
      (self, inr (planned_cases ++ replanned))
  end.

(** [get_current].  The class never sets [self.simulator]; the lookup it
    guards is a parameter: the outer [None] is an absent or falsy attribute,
    an inner [None] is a call that raised, which the bare [except] swallows.
    Both fall through to [default_max.get(res_type, 0)]. *)
Definition get_current (simulator : option (ResourceType -> Q -> option Z))
    (time : Q) (res_type : ResourceType) : Z :=
  match simulator with
  | Some get_number_of_resources =>
      match get_number_of_resources res_type time with
      | Some n => n
      | None => table_get default_max res_type
      end
  | None => table_get default_max res_type
  end.

(** [schedule] reads and writes no attribute of the planner but
    [self.simulator]. *)
Definition schedule (simulator : option (ResourceType -> Q -> option Z))
    (self : Planner) (simulation_time : Q) : Planner * list capacity_entry :=
  (self, ScheduleBody.schedule (get_current simulator) simulation_time).

(** [report].  The two reporter callbacks write to collaborators, not to the
    planner.  [data] is [None] or a dictionary with string values; [None]
    and the empty dictionary are falsy. *)
Definition report (self : Planner) (case_id : nat)
    (data : option (gmap string string)) : Planner :=
  match data with
  | None => self
  | Some d =>
      if decide (d = ∅) then self
      else
        match d !! "diagnosis"%string with
        | None => self
        | Some v =>
            mkPlanner (<[case_id := v]> (patient_diagnoses self))
              (patient_first_plan self) (last_replanned self)
        end
  end.

End OptimizedPlanner.

(** ** [HeuristicPlanner.py] *)

Module HeuristicPlanner.

(** The dictionary [calculate_priority] expects per case. *)
Record PatientInfo := mkInfo {
  arrival_time : option Q;
  diagnosis : option string
}.

(** The exception of reading an attribute the instance does not have. *)
Inductive exn := AttributeError (name : string).

(** The attributes of an instance.  [__init__] assigns
    [replanned_patients] (and [kpis], which no method reads) but not
    [patient_info], which no statement of the repository assigns either:
    [None] is the attribute being absent, [Some] a dictionary a caller has
    assigned from outside. *)
Record Planner := mkPlanner {
  patient_info : option (gmap nat PatientInfo);
  replanned_patients : gset nat
}.

(** The instance [__init__] builds. *)
Definition init : Planner := mkPlanner None ∅.

(** The statements of [calculate_priority] after [self.patient_info] has
    been read. *)
Definition priority_score (patient_info : gmap nat PatientInfo)
    (case_id : nat) (simulation_time : Q) (is_replan : bool) : Q :=
  let info := default (mkInfo None None) (patient_info !! case_id) in
  let arrival_time := default simulation_time (arrival_time info) in
  let waiting_time := (simulation_time - arrival_time)%Q in
  let diagnosis := diagnosis info in
  let waiting_weight := 1%Q in
  let diagnosis_weight := 10%Q in
  let severity_score :=
    match diagnosis with
    | None => 0%Q
    | Some d =>
        if String.eqb d "B1" then 3%Q
        else if String.eqb d "A2" then 2%Q
        else if String.eqb d "A3" then 1%Q
        else 0%Q
    end in
  let replanning_penalty := if is_replan then 20%Q else 0%Q in
  (waiting_weight * waiting_time + diagnosis_weight * severity_score
   + replanning_penalty)%Q.

(** [calculate_priority]: its first statement reads [self.patient_info]
    and raises [AttributeError] on an instance without it. *)
Definition calculate_priority (self : Planner) (case_id : nat)
    (simulation_time : Q) (is_replan : bool) : exn + Q :=
  match patient_info self with
  | None => inl (AttributeError "patient_info")
  | Some patient_info =>
      inr (priority_score patient_info case_id simulation_time is_replan)
  end.

(** [priority_dict[case_id] = v]: a present key keeps its place. *)
Fixpoint dict_set (d : list (nat * Q)) (k : nat) (v : Q) : list (nat * Q) :=
  match d with
  | [] => [(k, v)]
  | (k', v') :: d' =>
      if decide (k' = k) then (k', v) :: d' else (k', v') :: dict_set d' k v
  end.

(** [for case_id in cases: priority_dict[case_id] = self.calculate_priority(...)]:
    the first call that raises ends the loop. *)
Fixpoint score_cases (self : Planner) (simulation_time : Q) (is_replan : bool)
    (cases : list nat) (priority_dict : list (nat * Q))
    : exn + list (nat * Q) :=
  match cases with
  | [] => inr priority_dict
  | case_id :: rest =>
      match calculate_priority self case_id simulation_time is_replan with
      | inl e => inl e
      | inr priority =>
          score_cases self simulation_time is_replan rest
            (dict_set priority_dict case_id priority)
      end
  end.

(** The statements of [plan] after the two scoring loops. *)
Definition plan_sorted (simulation_time : Q) (priority_dict : list (nat * Q))
    : list (nat * Q) :=
  let sorted_cases :=
    stable_sort (fun y x : nat * Q => Py.ltb (snd x) (snd y)) priority_dict in
  map
    (fun '(case_id, priority) =>
       let planned_time :=
         if Py.ltb 100 priority then (simulation_time + 24)%Q
         else (simulation_time + 48)%Q in
       (case_id, planned_time))
    sorted_cases.

Definition plan (self : Planner) (cases_to_plan cases_to_replan : list nat)
    (simulation_time : Q) : exn + list (nat * Q) :=
  match score_cases self simulation_time false cases_to_plan [] with
  | inl e => inl e
  | inr priority_dict =>
      match score_cases self simulation_time true cases_to_replan
              priority_dict with
      | inl e => inl e
      | inr priority_dict => inr (plan_sorted simulation_time priority_dict)
      end
  end.

Definition schedule (self : Planner) (simulation_time : Q)
    : Planner * list capacity_entry :=
  let hour_of_week := Py.mod_ simulation_time 168 in
  let day_of_week := Py.floordiv hour_of_week 24 in
  let is_weekday := day_of_week <? 5 in
  if is_weekday then
    (self,
     [(OR, (simulation_time + 158)%Q, 5);
      (A_BED, (simulation_time + 158)%Q, 30);
      (B_BED, (simulation_time + 158)%Q, 40);
      (INTAKE, (simulation_time + 158)%Q, 4);
      (ER_PRACTITIONER, (simulation_time + 158)%Q, 9);
      (OR, (simulation_time + 168)%Q, 1);
      (INTAKE, (simulation_time + 168)%Q, 1)])
  else
    (self,
     [(OR, (simulation_time + 158)%Q, 1);
      (A_BED, (simulation_time + 158)%Q, 30);
      (B_BED, (simulation_time + 158)%Q, 10);
      (INTAKE, (simulation_time + 158)%Q, 1);
      (ER_PRACTITIONER, (simulation_time + 158)%Q, 4);
      (OR, (simulation_time + 168)%Q, 1);
      (INTAKE, (simulation_time + 168)%Q, 1)]).

End HeuristicPlanner.

(** ** Traces of [plan] calls *)

(** Which of the two optimized files a statement is about. *)
Inductive version := V1 | V2.

Definition plan_parts_of (v : version)
    : Planner -> list nat -> list nat -> Q
      -> Planner * (exn + (list plan_entry * list plan_entry)) :=
  match v with
  | V1 => OptimizedPlanner.plan_parts
  | V2 => OptimizedPlanner2.plan_parts
  end.

Definition candidate_id (x : candidate) : nat := fst (fst x).

(** The case ids of the entries the replanning loop appended; a call that
    raised returned nothing. *)
Definition replanned_ids (r : exn + (list plan_entry * list plan_entry))
    : list nat :=
  match r with
  | inl _ => []
  | inr (_, replanned) => map fst replanned
  end.

(** One [plan] call of a run.  [report] is the only writer of
    [patient_diagnoses]; the diagnoses on record when the call is made are
    part of the call, so that any sequence of reports in between is covered. *)
Record plan_call := mkCall {
  call_diagnoses : gmap nat string;
  call_plan : list nat;
  call_replan : list nat;
  call_time : Q
}.

(** The calls of a run in order, the planner's attributes carried from one
    call to the next also when a call raised: for each call, its
    [simulation_time] and the case ids its replanning loop emitted. *)
Fixpoint run (v : version) (self : Planner) (calls : list plan_call)
    : list (Q * list nat) :=
  match calls with
  | [] => []
  | c :: rest =>
      let self :=
        mkPlanner (call_diagnoses c) (patient_first_plan self)
          (last_replanned self) in
      let '(self', r) :=
        plan_parts_of v self (call_plan c) (call_replan c) (call_time c) in
      (call_time c, replanned_ids r) :: run v self' rest
  end.

(** [simulation_time] never decreases from one call to the next. *)
Fixpoint nondecreasing (ts : list Q) : Prop :=
  match ts with
  | [] => True
  | t :: rest =>
      match rest with
      | [] => True
      | t' :: _ => (t <= t')%Q
      end /\ nondecreasing rest
  end.

(** The lookup [get_current] may consult answers with the count the
    simulation holds, whenever it answers at all. *)
Definition answers (simulator : option (ResourceType -> Q -> option Z))
    (current : ResourceType -> Q -> Z) : Prop :=
  forall f r t n, simulator = Some f -> f r t = Some n -> n = current r t.

(** ** Names for the statements about single calls *)

Definition plan_of (v : version)
    : Planner -> list nat -> list nat -> Q -> Planner * (exn + list plan_entry) :=
  match v with
  | V1 => OptimizedPlanner.plan
  | V2 => OptimizedPlanner2.plan
  end.

(** The bound of [max_replans]: 10 in [OptimizedPlanner.py], 35 in
    [OptimizedPlanner2.0.py]. *)
Definition replan_cap (v : version) : nat :=
  match v with
  | V1 => 10%nat
  | V2 => 35%nat
  end.

Definition replan_priority_of (v : version) : Z -> option string -> Q -> Z :=
  match v with
  | V1 => OptimizedPlanner.replan_priority
  | V2 => OptimizedPlanner2.replan_priority
  end.

(** The entries the replanning loop appends for the candidates it reaches:
    the candidate of rank [i] is admitted at [round(base_time + i)]. *)
Definition replan_entries (base_time : Q) (replan_cases : list candidate)
    : list plan_entry :=
  imap
    (fun i x => (candidate_id x, Py.round (base_time + inject_Z (Z.of_nat i))))
    replan_cases.

(** The offset of a new case from [base_time], by priority. *)
Definition admission_offset (priority : Z) : Z :=
  if priority =? 0 then 0 else if priority =? 1 then 2 else 4.

(** The cooldown test of the replanning loop, as the condition to go on:
    [not (time_since_replan < 24)]. *)
Definition cooldown_passed (self : Planner) (simulation_time : Q)
    (case_id : nat) : bool :=
  negb (Py.ltb
          (simulation_time - default 0%Q (last_replanned self !! case_id)) 24).

(** The cases whose entries [plan] emits for [cases_to_plan]: all of them
    in [OptimizedPlanner2.0.py], the last one in [OptimizedPlanner.py]. *)
Definition new_case_ids (v : version) (cases_to_plan : list nat) : list nat :=
  match v with
  | V1 => [List.last cases_to_plan 0%nat]
  | V2 => cases_to_plan
  end.

(** What holds of the planner and of the entries appended so far, all
    along the loop of [emit_replans]. *)
Definition emit_invariant (self : Planner) (base_time : option Q)
    (simulation_time : Q) (replan_cases : list candidate)
    (acc : Planner * (exn + list plan_entry)) : Prop :=
  patient_diagnoses (fst acc) = patient_diagnoses self
  /\ patient_first_plan (fst acc) = patient_first_plan self
  /\ (forall c, last_replanned (fst acc) !! c = last_replanned self !! c
                \/ last_replanned (fst acc) !! c = Some simulation_time)
  /\ (forall planned, snd acc = inr planned ->
        forall c t, In (c, t) planned ->
          last_replanned (fst acc) !! c = Some simulation_time
          /\ In c (map candidate_id replan_cases)
          /\ exists b i, base_time = Some b
                         /\ t = Py.round (b + inject_Z (Z.of_nat i))).

(** * Properties *)

(** ** Comparisons and rounding *)

Lemma ltb_lt (x y : Q) : Py.ltb x y = true <-> (x < y)%Q.
Proof.
  unfold Py.ltb. rewrite negb_true_iff.
  split.
  - intros H. apply Qnot_le_lt. intros Hle.
    apply Qle_bool_iff in Hle. congruence.
  - intros H. destruct (Qle_bool y x) eqn:E; [|reflexivity].
    apply Qle_bool_iff in E. exfalso. apply (Qlt_not_le _ _ H E).
Qed.

Lemma ltb_ge (x y : Q) : Py.ltb x y = false <-> (y <= x)%Q.
Proof.
  unfold Py.ltb. rewrite negb_false_iff. apply Qle_bool_iff.
Qed.

Lemma round_ge_floor (x : Q) : Qfloor x <= Py.round x.
Proof.
  unfold Py.round.
  destruct (x - inject_Z (Qfloor x) ?= 1 # 2)%Q; [destruct (Z.even _)| |]; lia.
Qed.

(** Rounding never takes a number below a whole number it has reached. *)
Lemma round_ge_integer (x : Q) (n : Z) : (inject_Z n <= x)%Q -> n <= Py.round x.
Proof.
  intros H. apply Qfloor_resp_le in H. rewrite Qfloor_Z in H.
  pose proof (round_ge_floor x). lia.
Qed.

Lemma max_ge_r (a b : Q) : (b <= Py.max a b)%Q.
Proof.
  unfold Py.max. destruct (Py.ltb a b) eqn:E.
  - apply Qle_refl.
  - now apply ltb_ge in E.
Qed.

(** ** The capacity tables *)

Lemma in_apply_block gc cutoff time table r t n :
  In (r, t, n) (ScheduleBody.apply_block gc cutoff time table) ->
  t = time /\ In (r, n) table /\
  ((time < cutoff)%Q -> gc time r < n) /\
  (Py.ltb time cutoff = false \/ gc time r < n).
Proof.
  unfold ScheduleBody.apply_block. intros H.
  apply in_flat_map in H as [[r' n'] [Hin H]].
  destruct (Py.ltb time cutoff) eqn:E.
  - destruct (n' >? gc time r') eqn:G; simpl in H; [|contradiction].
    destruct H as [H|[]]. inversion H; subst.
    apply Z.gtb_lt in G. repeat split; auto.
  - destruct H as [H|[]]. inversion H; subst.
    repeat split; auto.
    intros Hlt. apply ltb_lt in Hlt. congruence.
Qed.

Lemma table_counts_bounded target_day r n :
  In (r, n) (ScheduleBody.morning_res target_day)
  \/ In (r, n) (ScheduleBody.afternoon_res target_day) ->
  0 <= n <= max_of r.
Proof.
  unfold ScheduleBody.morning_res, ScheduleBody.afternoon_res.
  destruct (target_day <? 5); simpl;
    intros [H|H]; repeat (destruct H as [H|H]; [inversion H; subst; vm_compute; split; discriminate|]);
    contradiction.
Qed.

(** What an entry of the shared schedule body looks like. *)
Lemma in_schedule_body gc simulation_time r t n :
  In (r, t, n) (ScheduleBody.schedule gc simulation_time) ->
  0 <= n <= max_of r /\
  ((simulation_time + 158 <= t)%Q \/ gc t r < n).
Proof.
  unfold ScheduleBody.schedule.
  destruct (negb (hour_of_day simulation_time =? 18)); [intros []|].
  intros H. apply in_flat_map in H as [d [_ H]].
  unfold ScheduleBody.schedule_day in H.
  apply in_app_or in H.
  destruct H as [H|H]; apply in_apply_block in H as (-> & Hin & _ & Hc).
  - split; [apply (table_counts_bounded _ _ _ (or_introl Hin))|].
    destruct Hc as [Hc|Hc]; [left; now apply ltb_ge in Hc | now right].
  - split; [apply (table_counts_bounded _ _ _ (or_intror Hin))|].
    destruct Hc as [Hc|Hc]; [left; now apply ltb_ge in Hc | now right].
Qed.

(** With the lookup of [OptimizedPlanner2.0.py] the test [count > current]
    never succeeds, which leaves the entries beyond the cutoff. *)
Lemma in_schedule2 simulation_time r t n :
  In (r, t, n)
    (ScheduleBody.schedule OptimizedPlanner2.get_current simulation_time) ->
  (simulation_time + 158 <= t)%Q.
Proof.
  intros H. apply in_schedule_body in H as [Hb [H|H]]; [exact H|].
  unfold OptimizedPlanner2.get_current in H. unfold max_of in Hb. lia.
Qed.

Lemma in_heuristic_schedule hself simulation_time r t n :
  In (r, t, n) (snd (HeuristicPlanner.schedule hself simulation_time)) ->
  0 <= n <= max_of r /\ (simulation_time + 158 <= t)%Q.
Proof.
  unfold HeuristicPlanner.schedule.
  destruct (Py.floordiv _ _ <? 5); simpl; intros H;
    repeat (destruct H as [H|H];
            [inversion H; subst; split; [vm_compute; split; discriminate | lra]|]);
    contradiction.
Qed.

(** ** Capacity entries *)

(** C6: every triple [(resource_type, effective_time, count)] that
    [schedule] emits, in any of the three planners and at any simulation
    time, has [0 <= count <= max(resource_type)], the maxima being 5, 30,
    40, 4 and 9; in particular an operating-room triple never has a count
    above 5. *)
Theorem schedule_count_within_maximum
    (simulator : option (ResourceType -> Q -> option Z))
    (self : Planner) (hself : HeuristicPlanner.Planner)
    (simulation_time : Q) (r : ResourceType) (t : Q) (n : Z) :
  In (r, t, n) (snd (OptimizedPlanner.schedule simulator self simulation_time))
  \/ In (r, t, n) (snd (OptimizedPlanner2.schedule self simulation_time))
  \/ In (r, t, n) (snd (HeuristicPlanner.schedule hself simulation_time)) ->
  0 <= n <= max_of r
  /\ (r = OR -> n <= 5)
  /\ map max_of [OR; A_BED; B_BED; INTAKE; ER_PRACTITIONER] = [5; 30; 40; 4; 9].
Proof.
  intros H.
  assert (Hb : 0 <= n <= max_of r).
  { destruct H as [H|[H|H]].
    - apply in_schedule_body in H. tauto.
    - apply in_schedule_body in H. tauto.
    - apply in_heuristic_schedule in H. tauto. }
  split; [exact Hb|]. split; [|reflexivity].
  intros ->. exact (proj2 Hb).
Qed.

Lemma schedule_count_within_maximum_witness :
  0 <= 3 <= max_of OR /\ (OR = OR -> 3 <= 5).
Proof.
  pose proof (schedule_count_within_maximum None fresh_planner
                HeuristicPlanner.init 18 OR 176 3) as H.
  assert (Hin : In (OR, 176%Q, 3)
                  (snd (OptimizedPlanner2.schedule fresh_planner 18))).
  { vm_compute. left. reflexivity. }
  destruct (H (or_intror (or_introl Hin))) as (H1 & H2 & _).
  split; assumption.
Defined.

(** C10: in [OptimizedPlanner2.0.py], every triple [schedule] emits has
    [effective_time >= simulation_time + 158]: [get_current] answers the
    maximum of the type, no table count exceeds it, so the test
    [count > current] fails at every checkpoint inside the near horizon. *)
Theorem schedule2_emits_beyond_near_horizon
    (self : Planner) (simulation_time : Q) (r : ResourceType) (t : Q) (n : Z) :
  In (r, t, n) (snd (OptimizedPlanner2.schedule self simulation_time)) ->
  (simulation_time + 158 <= t)%Q.
Proof. simpl. intros H. now apply in_schedule2 in H. Qed.

Lemma schedule2_emits_beyond_near_horizon_witness : (18 + 158 <= 176)%Q.
Proof.
  apply (schedule2_emits_beyond_near_horizon fresh_planner 18 OR 176 3).
  vm_compute. left. reflexivity.
Defined.

(** The checkpoints of the first six scheduled days all lie inside the near
    horizon, so those days contribute nothing; 80 triples remain. *)
Lemma schedule2_first_days_empty (simulation_time : Q) (day_offset : Z) :
  0 <= day_offset < 6 ->
  ScheduleBody.schedule_day OptimizedPlanner2.get_current
    (day_of_week simulation_time)
    (simulation_time + inject_Z (24 - 18)) (simulation_time + 158)
    day_offset = [].
Proof.
  intros Hd.
  destruct (ScheduleBody.schedule_day _ _ _ _ _) as [|[[r t] n] l] eqn:E;
    [reflexivity|exfalso].
  assert (Hin : In (r, t, n)
                  (ScheduleBody.schedule_day OptimizedPlanner2.get_current
                     (day_of_week simulation_time)
                     (simulation_time + inject_Z (24 - 18))
                     (simulation_time + 158) day_offset))
    by (rewrite E; now left).
  unfold ScheduleBody.schedule_day in Hin.
  assert (Hq : (inject_Z (day_offset * 24) <= 120)%Q).
  { change 120%Q with (inject_Z 120). rewrite <- Zle_Qle. lia. }
  apply in_app_or in Hin.
  destruct Hin as [Hin|Hin];
    apply in_apply_block in Hin as (_ & Hin & Hlt & _).
  - pose proof (table_counts_bounded _ _ _ (or_introl Hin)) as Hb.
    unfold OptimizedPlanner2.get_current, max_of in *.
    assert (table_get default_max r < n); [apply Hlt|lia].
    change (inject_Z (24 - 18)) with 6%Q. lra.
  - pose proof (table_counts_bounded _ _ _ (or_intror Hin)) as Hb.
    unfold OptimizedPlanner2.get_current, max_of in *.
    assert (table_get default_max r < n); [apply Hlt|lia].
    change (inject_Z (24 - 18)) with 6%Q. lra.
Qed.

Example schedule2_at_18 :
  length (snd (OptimizedPlanner2.schedule fresh_planner 18)) = 80%nat.
Proof. vm_compute. reflexivity. Qed.

(** C2: a triple that [schedule] emits with an effective time less than
    158 hours after the simulation time never has a count below the
    authoritative count for its type at that time.  In [OptimizedPlanner.py]
    the count is compared with the simulation's own when the lookup answers,
    and with the maximum otherwise; [OptimizedPlanner2.0.py] and
    [HeuristicPlanner.py] emit nothing that early. *)
Theorem schedule_never_decreases_near_horizon
    (simulator : option (ResourceType -> Q -> option Z))
    (current : ResourceType -> Q -> Z)
    (self : Planner) (hself : HeuristicPlanner.Planner)
    (simulation_time : Q) (r : ResourceType) (t : Q) (n : Z) :
  answers simulator current ->
  In (r, t, n) (snd (OptimizedPlanner.schedule simulator self simulation_time))
  \/ In (r, t, n) (snd (OptimizedPlanner2.schedule self simulation_time))
  \/ In (r, t, n) (snd (HeuristicPlanner.schedule hself simulation_time)) ->
  (t - simulation_time < 158)%Q ->
  current r t <= n.
Proof.
  intros Hans H Hnear.
  destruct H as [H|[H|H]].
  - simpl in H. apply in_schedule_body in H as [Hb [H|H]]; [lra|].
    unfold OptimizedPlanner.get_current in H. unfold max_of in Hb.
    destruct simulator as [f|]; [|lia].
    destruct (f r t) as [m|] eqn:E; [|lia].
    rewrite <- (Hans f r t m eq_refl E). lia.
  - simpl in H. apply in_schedule2 in H. lra.
  - apply in_heuristic_schedule in H. lra.
Qed.

Lemma schedule_never_decreases_near_horizon_witness : 2 <= 3.
Proof.
  apply (schedule_never_decreases_near_horizon
           (Some (fun _ _ => Some 2)) (fun _ _ => 2) fresh_planner
           HeuristicPlanner.init 18 OR 32 3).
  - intros f r t n Hf Hn. inversion Hf; subst. now inversion Hn.
  - left. vm_compute. left. reflexivity.
  - vm_compute. reflexivity.
Defined.

(** C7, as the code has it: in both optimized planners a call of
    [schedule] at a simulation time whose hour of day is not 18 returns the
    empty list and leaves the planner as it was.  [HeuristicPlanner.schedule]
    has no such gate: it returns seven triples at every simulation time,
    also without touching the planner. *)
Theorem schedule_off_hour_is_noop
    (simulator : option (ResourceType -> Q -> option Z))
    (self : Planner) (hself : HeuristicPlanner.Planner) (simulation_time : Q) :
  hour_of_day simulation_time <> 18 ->
  OptimizedPlanner.schedule simulator self simulation_time = (self, [])
  /\ OptimizedPlanner2.schedule self simulation_time = (self, [])
  /\ fst (HeuristicPlanner.schedule hself simulation_time) = hself
  /\ length (snd (HeuristicPlanner.schedule hself simulation_time)) = 7%nat.
Proof.
  intros Hh.
  unfold OptimizedPlanner.schedule, OptimizedPlanner2.schedule,
    ScheduleBody.schedule.
  apply Z.eqb_neq in Hh. rewrite Hh. simpl.
  repeat split; unfold HeuristicPlanner.schedule;
    destruct (Py.floordiv _ _ <? 5); reflexivity.
Qed.

Lemma schedule_off_hour_is_noop_witness :
  OptimizedPlanner.schedule None fresh_planner 100 = (fresh_planner, [])
  /\ OptimizedPlanner2.schedule fresh_planner 100 = (fresh_planner, []).
Proof.
  destruct (schedule_off_hour_is_noop None fresh_planner
              HeuristicPlanner.init 100) as (H1 & H2 & _).
  - vm_compute. discriminate.
  - split; assumption.
Defined.

(** C7 as stated fails on [HeuristicPlanner.schedule]: at hour 0 of day 0
    it returns a non-empty list. *)
Lemma heuristic_schedule_not_gated :
  ~ (forall (hself : HeuristicPlanner.Planner) (simulation_time : Q),
       hour_of_day simulation_time <> 18 ->
       snd (HeuristicPlanner.schedule hself simulation_time) = []).
Proof.
  intros H.
  specialize (H HeuristicPlanner.init 0%Q).
  assert (Hh : hour_of_day 0 <> 18) by (vm_compute; discriminate).
  specialize (H Hh). vm_compute in H. discriminate.
Qed.

(** ** Single calls of [plan] *)

(** C9: [plan([C1], [], 100)] on a planner with no diagnosis on record for
    [C1] (a fresh planner in particular) returns exactly one entry
    [(C1, t)], with [t >= 124], in both optimized files; the entry is
    [(C1, 128)]. *)
Theorem plan_single_new_case (self : Planner) (c1 : nat) :
  patient_diagnoses self !! c1 = None ->
  (exists t, snd (OptimizedPlanner2.plan self [c1] [] 100) = inr [(c1, t)]
             /\ 124 <= t)
  /\ (exists t, snd (OptimizedPlanner.plan self [c1] [] 100) = inr [(c1, t)]
                /\ 124 <= t).
Proof.
  intros Hd. split; exists 128; (split; [|lia]).
  - unfold OptimizedPlanner2.plan, OptimizedPlanner2.plan_parts,
      OptimizedPlanner2.plan_loop.
    cbn [fold_left OptimizedPlanner2.plan_case].
    unfold record_first_plan.
    destruct (patient_first_plan self !! c1);
      cbn [patient_diagnoses]; rewrite Hd; reflexivity.
  - unfold OptimizedPlanner.plan, OptimizedPlanner.plan_parts,
      OptimizedPlanner.new_cases_of, OptimizedPlanner.diagnosis_loop.
    cbn [fold_left].
    unfold record_first_plan.
    destruct (patient_first_plan self !! c1);
      cbn [patient_diagnoses]; rewrite Hd; reflexivity.
Qed.

Lemma plan_single_new_case_witness :
  exists t, snd (OptimizedPlanner2.plan fresh_planner [1%nat] [] 100)
            = inr [(1%nat, t)] /\ 124 <= t.
Proof.
  apply (plan_single_new_case fresh_planner 1%nat).
  reflexivity.
Defined.

(** C4 fails on the code.  With [cases_to_plan] empty, [plan] of
    [OptimizedPlanner.py] reads [diagnosis] before any statement has
    assigned it, whatever [cases_to_replan] holds, and [plan] of
    [OptimizedPlanner2.0.py] reads [target_day] for the first case that
    passes the cooldown test: both raise [UnboundLocalError] instead of
    returning a list. *)
Theorem plan_raises_without_new_cases :
  (forall (self : Planner) (cases_to_replan : list nat) (simulation_time : Q),
      snd (OptimizedPlanner.plan self [] cases_to_replan simulation_time)
      = inl (UnboundLocalError "diagnosis"))
  /\ snd (OptimizedPlanner2.plan fresh_planner [] [2%nat] 100)
     = inl (UnboundLocalError "target_day")
  /\ snd (OptimizedPlanner.plan fresh_planner [] [2%nat] 100)
     = inl (UnboundLocalError "diagnosis").
Proof.
  split; [|split; reflexivity].
  intros self cases_to_replan simulation_time. reflexivity.
Qed.

(** In [OptimizedPlanner2.0.py] the exception needs a case that passes the
    cooldown test; without one the call returns the empty list. *)
Lemma plan2_raises_on_first_survivor (self : Planner) (c : nat)
    (rest : list nat) (simulation_time : Q) :
  (24 <= simulation_time - default 0%Q (last_replanned self !! c))%Q ->
  snd (OptimizedPlanner2.plan self [] (c :: rest) simulation_time)
  = inl (UnboundLocalError "target_day").
Proof.
  intros H. apply ltb_ge in H.
  unfold OptimizedPlanner2.plan, OptimizedPlanner2.plan_parts,
    OptimizedPlanner2.plan_loop.
  cbn [fold_left OptimizedPlanner2.assign_new OptimizedPlanner2.new_cases
       OptimizedPlanner2.base_time OptimizedPlanner2.target_day
       select_replans].
  rewrite H. reflexivity.
Qed.

Example plan2_nothing_to_do :
  snd (OptimizedPlanner2.plan fresh_planner [] [] 100) = inr [].
Proof. reflexivity. Qed.

(** C1 fails on the code at simulation times that are not whole hours:
    [round] is applied after the clamp to [simulation_time + 24] and can
    take the admission time back below it.  At 100.25 the replanned case is
    admitted at 124 < 124.25, and so is a new case of the first priority. *)
Theorem plan_rounds_below_lead_time :
  snd (OptimizedPlanner2.plan fresh_planner [1%nat] [2%nat] (401 # 4))
  = inr [(1%nat, 128); (2%nat, 124)]
  /\ snd (OptimizedPlanner2.plan
            (mkPlanner {[ 1%nat := "A3"%string ]} ∅ ∅) [1%nat] [] (401 # 4))
     = inr [(1%nat, 124)]
  /\ snd (OptimizedPlanner.plan fresh_planner [1%nat] [2%nat] (401 # 4))
     = inr [(1%nat, 128); (2%nat, 124)]
  /\ ~ (inject_Z 124 >= (401 # 4) + 24)%Q.
Proof.
  repeat split; try (vm_compute; reflexivity).
  intros H. vm_compute in H. apply H. reflexivity.
Qed.

(** C8 fails on the code.  On the instance [__init__] builds,
    [calculate_priority] raises [AttributeError] at its first statement,
    for either value of [is_replan]: no score is computed.  Where it does
    return, on an instance that has been given a [patient_info] dictionary,
    it adds 20 to the score of a replanned case, and [plan] sorts by
    decreasing score: the replanned case is ranked ahead of an otherwise
    identical new case. *)
Theorem replanning_penalty_raises_priority
    (hself : HeuristicPlanner.Planner) (c : nat) (simulation_time : Q) :
  match HeuristicPlanner.patient_info hself with
  | None =>
      HeuristicPlanner.calculate_priority hself c simulation_time true
      = inl (HeuristicPlanner.AttributeError "patient_info")
      /\ HeuristicPlanner.calculate_priority hself c simulation_time false
         = inl (HeuristicPlanner.AttributeError "patient_info")
  | Some _ =>
      exists s_new s_replan,
        HeuristicPlanner.calculate_priority hself c simulation_time false
        = inr s_new
        /\ HeuristicPlanner.calculate_priority hself c simulation_time true
           = inr s_replan
        /\ (s_replan == s_new + 20)%Q
        /\ ~ (s_replan <= s_new)%Q
  end.
Proof.
  unfold HeuristicPlanner.calculate_priority.
  destruct (HeuristicPlanner.patient_info hself) as [pi|]; [|now split].
  do 2 eexists. do 2 (split; [reflexivity|]).
  unfold HeuristicPlanner.priority_score.
  destruct (pi !! c) as [[a d]|]; cbn [default id];
    cbn [HeuristicPlanner.arrival_time HeuristicPlanner.diagnosis];
    split; lra.
Qed.

Example calculate_priority_as_built :
  HeuristicPlanner.calculate_priority HeuristicPlanner.init 1%nat 100 true
  = inl (HeuristicPlanner.AttributeError "patient_info")
  /\ HeuristicPlanner.calculate_priority HeuristicPlanner.init 1%nat 100 false
     = inl (HeuristicPlanner.AttributeError "patient_info").
Proof. split; reflexivity. Qed.

Example heuristic_plan_ranks_replan_first :
  HeuristicPlanner.plan (HeuristicPlanner.mkPlanner (Some ∅) ∅)
    [1%nat] [2%nat] 100
  = inr [(2%nat, (100 + 48)%Q); (1%nat, (100 + 48)%Q)].
Proof. vm_compute. reflexivity. Qed.

(** ** The replanning loops *)

Lemma select_replans_total prio self target_day simulation_time cases :
  exists l,
    select_replans prio self (Some target_day) simulation_time cases = inr l.
Proof.
  induction cases as [|c cases [l IH]]; cbn [select_replans].
  - now exists [].
  - destruct (Py.ltb _ 24).
    + now exists l.
    + rewrite IH. eauto.
Qed.

(** Every candidate the loop keeps comes from [cases_to_replan] and has
    passed the cooldown test. *)
Lemma select_replans_sound prio self target_day simulation_time cases l :
  select_replans prio self target_day simulation_time cases = inr l ->
  forall x, In x l ->
    In (candidate_id x) cases
    /\ (24 <= simulation_time
              - default 0%Q (last_replanned self !! candidate_id x))%Q.
Proof.
  revert l. induction cases as [|c cases IH]; cbn [select_replans]; intros l H x Hx.
  - inversion H; subst. destruct Hx.
  - destruct (Py.ltb _ 24) eqn:E.
    + destruct (IH l H x Hx). split; [now right|assumption].
    + destruct target_day as [td|]; [|discriminate].
      destruct (select_replans prio self (Some td) simulation_time cases)
        as [e|l'] eqn:E'; [discriminate|].
      inversion H; subst. destruct Hx as [<-|Hx].
      * split; [now left|]. now apply ltb_ge in E.
      * destruct (IH l' eq_refl x Hx). split; [now right|assumption].
Qed.

(** Every case that passes the cooldown test is kept. *)
Lemma select_replans_complete prio self target_day simulation_time cases l c :
  select_replans prio self target_day simulation_time cases = inr l ->
  In c cases ->
  (24 <= simulation_time - default 0%Q (last_replanned self !! c))%Q ->
  In c (map candidate_id l).
Proof.
  revert l. induction cases as [|c' cases IH]; cbn [select_replans];
    intros l H Hc Hcool; [destruct Hc|].
  destruct (Py.ltb _ 24) eqn:E.
  - destruct Hc as [->|Hc]; [|now apply IH].
    apply ltb_ge in Hcool. congruence.
  - destruct target_day as [td|]; [|discriminate].
    destruct (select_replans prio self (Some td) simulation_time cases)
      as [e|l'] eqn:E'; [discriminate|].
    inversion H; subst. cbn [map candidate_id fst].
    destruct Hc as [->|Hc]; [now left|right; now apply IH].
Qed.

Lemma in_insert_sorted {A} (before : A -> A -> bool) x y l :
  In y (insert_sorted before x l) <-> y = x \/ In y l.
Proof.
  induction l as [|z l IH]; cbn [insert_sorted].
  - simpl. intuition.
  - destruct (before z x); simpl; rewrite ?IH; intuition.
Qed.

(** Sorting keeps exactly the elements of the list. *)
Lemma in_stable_sort {A} (before : A -> A -> bool) l y :
  In y (stable_sort before l) <-> In y l.
Proof.
  induction l as [|x l IH]; cbn [stable_sort fold_right]; [reflexivity|].
  fold (stable_sort before l). rewrite in_insert_sorted, IH. simpl. intuition.
Qed.

Lemma fold_left_invariant {A B} (P : A -> Prop) (f : A -> B -> A) l a :
  P a -> (forall a b, P a -> P (f a b)) -> P (fold_left f l a).
Proof.
  intros Ha Hf. revert a Ha.
  induction l as [|b l IH]; intros a Ha; cbn [fold_left]; auto.
Qed.

Lemma emit_step_invariant self base_time simulation_time replan_cases acc i :
  emit_invariant self base_time simulation_time replan_cases acc ->
  emit_invariant self base_time simulation_time replan_cases
    (emit_step base_time simulation_time replan_cases acc i).
Proof.
  destruct acc as [s [e|planned]]; intros Hinv; [exact Hinv|].
  unfold emit_step.
  destruct (replan_cases !! i) as [[[c p] w]|] eqn:El; [|exact Hinv].
  destruct base_time as [b|].
  - destruct Hinv as (Hd & Hf & Hl & Hp). cbn [fst snd] in *.
    unfold emit_invariant. cbn [fst snd record_replanned patient_diagnoses
                                patient_first_plan last_replanned].
    repeat split; auto.
    + intros c'. destruct (decide (c = c')) as [->|Hne].
      * right. apply lookup_insert_eq.
      * rewrite lookup_insert_ne by assumption. apply Hl.
    + destruct (decide (c = c0)) as [->|Hne].
      * apply lookup_insert_eq.
      * rewrite lookup_insert_ne by assumption.
        inversion H; subst. apply in_app_or in H0 as [H0|[H0|[]]].
        -- now destruct (Hp planned eq_refl c0 t H0).
        -- inversion H0; subst. congruence.
    + inversion H; subst. apply in_app_or in H0 as [H0|[H0|[]]].
      * now destruct (Hp planned eq_refl c0 t H0) as (_ & ? & _).
      * inversion H0; subst.
        apply in_map_iff. exists (c0, p, w). split; [reflexivity|].
        apply list_elem_of_In. eapply list_elem_of_lookup_2. exact El.
    + inversion H; subst. apply in_app_or in H0 as [H0|[H0|[]]].
      * now destruct (Hp planned eq_refl c0 t H0) as (_ & _ & ?).
      * inversion H0; subst. eauto.
  - destruct Hinv as (Hd & Hf & Hl & Hp). cbn [fst snd] in *.
    unfold emit_invariant. cbn [fst snd]. repeat split; auto.
    all: discriminate.
Qed.

Lemma emit_replans_invariant cap self base_time simulation_time replan_cases :
  emit_invariant self base_time simulation_time replan_cases
    (emit_replans cap self base_time simulation_time replan_cases).
Proof.
  unfold emit_replans. apply fold_left_invariant.
  - unfold emit_invariant. cbn [fst snd]. repeat split; auto.
    all: inversion H; subst; destruct H0.
  - intros a i. apply emit_step_invariant.
Qed.

(** ** One call of [plan] and the ledger of last replans *)

Lemma record_first_plan_last_replanned simulation_time self c :
  last_replanned (record_first_plan simulation_time self c)
  = last_replanned self.
Proof. unfold record_first_plan. now destruct (patient_first_plan self !! c). Qed.

Lemma track_first_plan_last_replanned simulation_time cases self :
  last_replanned (fold_left (record_first_plan simulation_time) cases self)
  = last_replanned self.
Proof.
  revert self. induction cases as [|c cases IH]; intros self; cbn [fold_left].
  - reflexivity.
  - rewrite IH. apply record_first_plan_last_replanned.
Qed.

(** The first loop of [OptimizedPlanner2.0.py] leaves [last_replanned]
    alone, and binds [base_time] to [simulation_time + 24] if at all. *)
Lemma plan_loop_spec simulation_time cases self :
  let '(self', loc) := OptimizedPlanner2.plan_loop self cases simulation_time in
  last_replanned self' = last_replanned self
  /\ (OptimizedPlanner2.base_time loc = None
      \/ OptimizedPlanner2.base_time loc = Some (simulation_time + 24)%Q).
Proof.
  unfold OptimizedPlanner2.plan_loop.
  apply (fold_left_invariant
           (fun acc : Planner * OptimizedPlanner2.locals =>
              let '(self', loc) := acc in
              last_replanned self' = last_replanned self
              /\ (OptimizedPlanner2.base_time loc = None
                  \/ OptimizedPlanner2.base_time loc
                     = Some (simulation_time + 24)%Q))).
  - split; [reflexivity|now left].
  - intros [s loc] c [Hl _]. unfold OptimizedPlanner2.plan_case.
    destruct (target_day_loop _ _); cbn [OptimizedPlanner2.base_time];
      (split; [now rewrite record_first_plan_last_replanned|now right]).
Qed.

(** What one call does to [last_replanned], and which cases its replanning
    loop can emit: only cases of [cases_to_replan] that passed the cooldown
    test, each of them stamped with the time of the call. *)
Lemma plan_parts_ledger v self cases_to_plan cases_to_replan simulation_time :
  let '(self', r) :=
    plan_parts_of v self cases_to_plan cases_to_replan simulation_time in
  (forall c, last_replanned self' !! c = last_replanned self !! c
             \/ last_replanned self' !! c = Some simulation_time)
  /\ (forall c, In c (replanned_ids r) ->
        last_replanned self' !! c = Some simulation_time
        /\ In c cases_to_replan
        /\ (24 <= simulation_time - default 0%Q (last_replanned self !! c))%Q).
Proof.
  destruct v; cbn [plan_parts_of].
  - unfold OptimizedPlanner.plan_parts.
    set (self1 := fold_left (record_first_plan simulation_time) cases_to_plan self).
    assert (H1 : last_replanned self1 = last_replanned self)
      by apply track_first_plan_last_replanned.
    destruct (OptimizedPlanner.new_cases_of self1 cases_to_plan simulation_time)
      as [e|[td new_cases]].
    { rewrite H1. split; [now left|intros c []]. }
    destruct (select_replans _ self1 (Some td) simulation_time cases_to_replan)
      as [e|cands] eqn:Es.
    { rewrite H1. split; [now left|intros c []]. }
    pose proof (emit_replans_invariant 10 self1
                  (Some (simulation_time + 24)%Q) simulation_time
                  (stable_sort candidate_before cands)) as Hinv.
    destruct (emit_replans 10 self1 _ simulation_time _) as [self2 [e|replanned]];
      destruct Hinv as (_ & _ & Hl & Hp); cbn [fst snd] in *.
    { rewrite <- H1. split; [exact Hl|intros c []]. }
    rewrite <- H1. split; [exact Hl|].
    intros c Hc. cbn [replanned_ids] in Hc.
    apply in_map_iff in Hc as [[c' t] [Heq Hc]]. cbn [fst] in Heq. subst c'.
    destruct (Hp replanned eq_refl c t Hc) as (Hs & Hin & _).
    split; [exact Hs|].
    apply in_map_iff in Hin as [x [<- Hx]].
    apply in_stable_sort in Hx.
    apply (select_replans_sound _ _ _ _ _ _ Es x Hx).
  - unfold OptimizedPlanner2.plan_parts.
    pose proof (plan_loop_spec simulation_time cases_to_plan self) as Hloop.
    destruct (OptimizedPlanner2.plan_loop self cases_to_plan simulation_time)
      as [self1 loc].
    destruct Hloop as [H1 _].
    destruct (OptimizedPlanner2.assign_new _ simulation_time 0 _) as [e|planned].
    { rewrite H1. split; [now left|intros c []]. }
    destruct (select_replans _ self1 _ simulation_time cases_to_replan)
      as [e|cands] eqn:Es.
    { rewrite H1. split; [now left|intros c []]. }
    pose proof (emit_replans_invariant 35 self1
                  (OptimizedPlanner2.base_time loc) simulation_time
                  (stable_sort candidate_before cands)) as Hinv.
    destruct (emit_replans 35 self1 _ simulation_time _) as [self2 [e|replanned]];
      destruct Hinv as (_ & _ & Hl & Hp); cbn [fst snd] in *.
    { rewrite <- H1. split; [exact Hl|intros c []]. }
    rewrite <- H1. split; [exact Hl|].
    intros c Hc. cbn [replanned_ids] in Hc.
    apply in_map_iff in Hc as [[c' t] [Heq Hc]]. cbn [fst] in Heq. subst c'.
    destruct (Hp replanned eq_refl c t Hc) as (Hs & Hin & _).
    split; [exact Hs|].
    apply in_map_iff in Hin as [x [<- Hx]].
    apply in_stable_sort in Hx.
    apply (select_replans_sound _ _ _ _ _ _ Es x Hx).
Qed.

(** ** The cooldown *)

(** From hour 24 on the cooldown test never skips a case that was never
    replanned: its last replan is read as time 0, the replanning loop
    completes and keeps it as a candidate (whenever [target_day] is bound,
    which [OptimizedPlanner.py] always ensures and [OptimizedPlanner2.0.py]
    ensures for a non-empty [cases_to_plan]). *)
Theorem never_replanned_case_survives_cooldown
    (prio : Z -> option string -> Q -> Z) (self : Planner) (target_day : Z)
    (simulation_time : Q) (cases_to_replan : list nat) (c : nat) :
  (24 <= simulation_time)%Q ->
  In c cases_to_replan ->
  last_replanned self !! c = None ->
  exists replan_cases,
    select_replans prio self (Some target_day) simulation_time cases_to_replan
    = inr replan_cases
    /\ In c (map candidate_id replan_cases).
Proof.
  intros Ht Hc Hnever.
  destruct (select_replans_total prio self target_day simulation_time
              cases_to_replan) as [l Hl].
  exists l. split; [exact Hl|].
  apply (select_replans_complete _ _ _ _ _ _ _ Hl Hc).
  rewrite Hnever. cbn [default]. lra.
Qed.

Lemma never_replanned_case_survives_cooldown_witness :
  exists replan_cases,
    select_replans OptimizedPlanner2.replan_priority fresh_planner (Some 4)
      100 [2%nat]
    = inr replan_cases
    /\ In 2%nat (map candidate_id replan_cases).
Proof.
  apply (never_replanned_case_survives_cooldown
           OptimizedPlanner2.replan_priority fresh_planner 4 100 [2%nat] 2%nat).
  - unfold Qle. simpl. lia.
  - left. reflexivity.
  - reflexivity.
Defined.

(** The same does not hold at every simulation time: at time 10 a case that
    was never replanned is skipped by the cooldown test. *)
Lemma never_replanned_case_skipped_before_24 :
  ~ (forall (self : Planner) (target_day : Z) (simulation_time : Q)
            (cases_to_replan : list nat) (c : nat),
        In c cases_to_replan ->
        last_replanned self !! c = None ->
        exists replan_cases,
          select_replans OptimizedPlanner2.replan_priority self
            (Some target_day) simulation_time cases_to_replan
          = inr replan_cases
          /\ In c (map candidate_id replan_cases)).
Proof.
  intros H.
  destruct (H fresh_planner 0 10%Q [2%nat] 2%nat (or_introl eq_refl) eq_refl)
    as [l [Hl Hin]].
  vm_compute in Hl. inversion Hl; subst. destruct Hin.
Qed.

(** Before hour 24 the cooldown test skips every case that was never
    replanned. *)
Lemma never_replanned_case_skipped_early prio self target_day simulation_time
    cases_to_replan replan_cases c :
  (simulation_time < 24)%Q ->
  last_replanned self !! c = None ->
  select_replans prio self target_day simulation_time cases_to_replan
  = inr replan_cases ->
  ~ In c (map candidate_id replan_cases).
Proof.
  intros Ht Hnever Hsel Hin.
  apply in_map_iff in Hin as [x [<- Hx]].
  destruct (select_replans_sound _ _ _ _ _ _ Hsel x Hx) as [_ Hcool].
  rewrite Hnever in Hcool. cbn [default id] in Hcool. lra.
Qed.

Example plan2_skips_never_replanned_at_10 :
  snd (OptimizedPlanner2.plan_parts fresh_planner [1%nat] [2%nat] 10)
  = inr ([(1%nat, 38)], []).
Proof. vm_compute. reflexivity. Qed.

(** Before hour 24 no call emits a replan for a case that was never
    replanned, in either optimized file. *)
Lemma never_replanned_not_emitted_before_24 v self cases_to_plan
    cases_to_replan simulation_time c :
  (simulation_time < 24)%Q ->
  last_replanned self !! c = None ->
  ~ In c (replanned_ids
            (snd (plan_parts_of v self cases_to_plan cases_to_replan
                    simulation_time))).
Proof.
  intros Ht Hnever Hin.
  pose proof (plan_parts_ledger v self cases_to_plan cases_to_replan
                simulation_time) as H.
  destruct (plan_parts_of v self cases_to_plan cases_to_replan simulation_time)
    as [self' r].
  destruct H as [_ H]. destruct (H c Hin) as (_ & _ & Hcool).
  rewrite Hnever in Hcool. cbn [default id] in Hcool. lra.
Qed.

(** C5 fails on the code.  The last replan of a case that was never
    replanned is read as time 0 ([last_replanned.get(case_id, 0)]), so
    during the first 24 hours the test [time_since_replan < 24], meant to
    skip cases replanned recently, skips it.  On a fresh planner
    [plan([1], [2], 10)] returns only the entry of the new case in both
    optimized files: case 2, never replanned, gets no replan. *)
Theorem never_replanned_case_skipped_in_first_day :
  last_replanned fresh_planner !! 2%nat = None
  /\ cooldown_passed fresh_planner 10 2%nat = false
  /\ snd (OptimizedPlanner2.plan fresh_planner [1%nat] [2%nat] 10)
     = inr [(1%nat, 38)]
  /\ snd (OptimizedPlanner.plan fresh_planner [1%nat] [2%nat] 10)
     = inr [(1%nat, 38)]
  /\ snd (OptimizedPlanner2.plan_parts fresh_planner [1%nat] [2%nat] 10)
     = inr ([(1%nat, 38)], [])
  /\ snd (OptimizedPlanner.plan_parts fresh_planner [1%nat] [2%nat] 10)
     = inr ([(1%nat, 38)], []).
Proof. repeat split; vm_compute; reflexivity. Qed.

Lemma nondecreasing_head t ts :
  nondecreasing (t :: ts) -> Forall (Qle t) ts.
Proof.
  revert t. induction ts as [|t' ts IH]; intros t H; [constructor|].
  destruct H as [Hle Hrest]. constructor; [exact Hle|].
  eapply Forall_impl; [apply (IH t' Hrest)|].
  intros a Ha. cbv beta in *. lra.
Qed.

(** Once a case has a last replan at or after [t1], no later call made
    less than 24 hours after [t1] emits it from its replanning loop. *)
Lemma run_blocks_recent v calls :
  forall self t1 c,
    (exists u, last_replanned self !! c = Some u /\ (t1 <= u)%Q) ->
    Forall (Qle t1) (map call_time calls) ->
    forall j t2 e2,
      run v self calls !! j = Some (t2, e2) ->
      (t2 - t1 < 24)%Q -> ~ In c e2.
Proof.
  induction calls as [|k calls IH]; intros self t1 c [u [Hu Hle]] Hall j t2 e2 Hj Hnear;
    [destruct j; discriminate|].
  cbn [run] in Hj. cbn [map] in Hall. inversion Hall as [|? ? Hk Hrest]; subst.
  pose proof (plan_parts_ledger v
                (mkPlanner (call_diagnoses k) (patient_first_plan self)
                   (last_replanned self))
                (call_plan k) (call_replan k) (call_time k)) as Hledger.
  destruct (plan_parts_of v _ (call_plan k) (call_replan k) (call_time k))
    as [self' r].
  cbn [last_replanned] in Hledger. destruct Hledger as [Hkeep Hemit].
  destruct j as [|j]; cbn in Hj.
  - inversion Hj; subst. intros Hin.
    destruct (Hemit c Hin) as (_ & _ & Hcool).
    rewrite Hu in Hcool. cbn [default id] in Hcool. lra.
  - apply (IH self' t1 c) with (j := j) (t2 := t2); auto.
    destruct (Hkeep c) as [Hc|Hc]; rewrite Hc; eauto.
Qed.

(** C3: along any run of [plan] calls whose simulation times never
    decrease, in either optimized file and from any planner state, a case
    emitted by the replanning loop of one call is not emitted by the
    replanning loop of any later call made less than 24 hours after it. *)
Theorem replan_cooldown
    (v : version) (self : Planner) (calls : list plan_call)
    (i j : nat) (t1 t2 : Q) (e1 e2 : list nat) (c : nat) :
  nondecreasing (map call_time calls) ->
  (i < j)%nat ->
  run v self calls !! i = Some (t1, e1) ->
  run v self calls !! j = Some (t2, e2) ->
  (t2 - t1 < 24)%Q ->
  In c e1 -> ~ In c e2.
Proof.
  revert self i j.
  induction calls as [|k calls IH]; intros self i j Hmono Hij Hi Hj Hnear Hc;
    [destruct i; discriminate|].
  destruct j as [|j]; [lia|].
  cbn [run] in Hi, Hj.
  pose proof (plan_parts_ledger v
                (mkPlanner (call_diagnoses k) (patient_first_plan self)
                   (last_replanned self))
                (call_plan k) (call_replan k) (call_time k)) as Hledger.
  destruct (plan_parts_of v _ (call_plan k) (call_replan k) (call_time k))
    as [self' r].
  destruct Hledger as [_ Hemit].
  cbn [map] in Hmono.
  destruct i as [|i]; cbn in Hi, Hj.
  - inversion Hi; subst.
    destruct (Hemit c Hc) as (Hstamp & _ & _).
    apply (run_blocks_recent v calls self' (call_time k) c)
      with (j := j) (t2 := t2); auto.
    + exists (call_time k). split; [exact Hstamp|lra].
    + now apply nondecreasing_head.
  - apply (IH self' i j); auto; [|lia].
    destruct Hmono as [_ Hmono]. exact Hmono.
Qed.

Lemma replan_cooldown_witness : ~ In 2%nat [].
Proof.
  apply (replan_cooldown V2 fresh_planner
           [mkCall ∅ [1%nat] [2%nat] 200; mkCall ∅ [1%nat] [2%nat] 210]
           0 1 200 210 [2%nat] [] 2%nat).
  - simpl. repeat split. unfold Qle. simpl. lia.
  - lia.
  - vm_compute. reflexivity.
  - vm_compute. reflexivity.
  - vm_compute. reflexivity.
  - left. reflexivity.
Defined.

(** The scenario of the cooldown: replanned at 200, skipped at 210,
    replanned again at 225, in both files. *)
Example replan_cooldown_scenario :
  run V2 fresh_planner
    [mkCall ∅ [1%nat] [2%nat] 200; mkCall ∅ [1%nat] [2%nat] 210;
     mkCall ∅ [1%nat] [2%nat] 225]
  = [(200%Q, [2%nat]); (210%Q, []); (225%Q, [2%nat])]
  /\ run V1 fresh_planner
       [mkCall ∅ [1%nat] [2%nat] 200; mkCall ∅ [1%nat] [2%nat] 210;
        mkCall ∅ [1%nat] [2%nat] 225]
     = [(200%Q, [2%nat]); (210%Q, []); (225%Q, [2%nat])].
Proof. split; vm_compute; reflexivity. Qed.

(** ** The lead time where it does hold *)

(** Every list [HeuristicPlanner.plan] returns admits at
    [simulation_time + 24] or [simulation_time + 48], at every simulation
    time. *)
Lemma heuristic_plan_lead_time hself cases_to_plan cases_to_replan
    simulation_time planned c t :
  HeuristicPlanner.plan hself cases_to_plan cases_to_replan simulation_time
  = inr planned ->
  In (c, t) planned ->
  (simulation_time + 24 <= t)%Q.
Proof.
  unfold HeuristicPlanner.plan.
  destruct (HeuristicPlanner.score_cases hself simulation_time false _ _)
    as [e|d1]; [discriminate|].
  destruct (HeuristicPlanner.score_cases hself simulation_time true _ _)
    as [e|d2]; [discriminate|].
  intros E H. inversion E; subst. unfold HeuristicPlanner.plan_sorted in H.
  apply in_map_iff in H as [[c' p] [Heq _]].
  destruct (Py.ltb 100 p); inversion Heq; subst; lra.
Qed.

Lemma whole_hour_lead (z : Z) (x : Q) :
  (inject_Z z + 24 <= x)%Q -> z + 24 <= Py.round x.
Proof.
  intros H. apply round_ge_integer.
  rewrite inject_Z_plus. change (inject_Z 24) with 24%Q. exact H.
Qed.

Lemma assign_new2_lead_time (z : Z) base_time i new_cases planned c t :
  OptimizedPlanner2.assign_new base_time (inject_Z z) i new_cases = inr planned ->
  In (c, t) planned -> z + 24 <= t.
Proof.
  revert i planned.
  induction new_cases as [|[c' p] rest IH]; intros i planned H Hin;
    cbn [OptimizedPlanner2.assign_new] in H.
  - inversion H; subst. destruct Hin.
  - destruct base_time as [b|]; [|discriminate].
    destruct (OptimizedPlanner2.assign_new (Some b) (inject_Z z) (S i) rest)
      as [e|planned'] eqn:E; [discriminate|].
    inversion H; subst. destruct Hin as [Hin|Hin].
    + inversion Hin; subst. apply whole_hour_lead. apply max_ge_r.
    + eapply IH; eauto.
Qed.

Lemma assign_new1_lead_time (z : Z) base_time i new_cases c t :
  In (c, t) (OptimizedPlanner.assign_new base_time (inject_Z z) i new_cases) ->
  z + 24 <= t.
Proof.
  revert i.
  induction new_cases as [|[c' p] rest IH]; intros i Hin;
    cbn [OptimizedPlanner.assign_new] in Hin; [destruct Hin|].
  destruct Hin as [Hin|Hin].
  - inversion Hin; subst. apply whole_hour_lead. apply max_ge_r.
  - eapply IH; eauto.
Qed.

(** At a simulation time that is a whole number of hours, every entry the
    optimized planners return, new or replanned, respects the lead time. *)
Lemma optimized_plan_lead_time_whole_hours v self cases_to_plan
    cases_to_replan (z : Z) self' fresh replanned c t :
  plan_parts_of v self cases_to_plan cases_to_replan (inject_Z z)
  = (self', inr (fresh, replanned)) ->
  In (c, t) (fresh ++ replanned) ->
  z + 24 <= t.
Proof.
  destruct v; cbn [plan_parts_of].
  - unfold OptimizedPlanner.plan_parts.
    set (self1 := fold_left (record_first_plan (inject_Z z)) cases_to_plan self).
    destruct (OptimizedPlanner.new_cases_of self1 cases_to_plan (inject_Z z))
      as [e|[td new_cases]]; [discriminate|].
    destruct (select_replans _ self1 (Some td) (inject_Z z) cases_to_replan)
      as [e|cands]; [discriminate|].
    pose proof (emit_replans_invariant 10 self1
                  (Some (inject_Z z + 24)%Q) (inject_Z z)
                  (stable_sort candidate_before cands)) as Hinv.
    destruct (emit_replans 10 self1 _ (inject_Z z) _) as [self2 [e|l]];
      [discriminate|].
    destruct Hinv as (_ & _ & _ & Hp). cbn [fst snd] in Hp.
    intros H Hin. inversion H; subst. apply in_app_or in Hin as [Hin|Hin].
    + eapply assign_new1_lead_time; eauto.
    + destruct (Hp replanned eq_refl c t Hin) as (_ & _ & b & i & Hb & ->).
      inversion Hb; subst. apply whole_hour_lead.
      assert (0 <= inject_Z (Z.of_nat i))%Q
        by (change 0%Q with (inject_Z 0); rewrite <- Zle_Qle; lia).
      lra.
  - unfold OptimizedPlanner2.plan_parts.
    pose proof (plan_loop_spec (inject_Z z) cases_to_plan self) as Hloop.
    destruct (OptimizedPlanner2.plan_loop self cases_to_plan (inject_Z z))
      as [self1 loc].
    destruct Hloop as [_ Hbase].
    destruct (OptimizedPlanner2.assign_new _ (inject_Z z) 0 _)
      as [e|planned] eqn:Ea; [discriminate|].
    destruct (select_replans _ self1 _ (inject_Z z) cases_to_replan)
      as [e|cands]; [discriminate|].
    pose proof (emit_replans_invariant 35 self1
                  (OptimizedPlanner2.base_time loc) (inject_Z z)
                  (stable_sort candidate_before cands)) as Hinv.
    destruct (emit_replans 35 self1 _ (inject_Z z) _) as [self2 [e|l]];
      [discriminate|].
    destruct Hinv as (_ & _ & _ & Hp). cbn [fst snd] in Hp.
    intros H Hin. inversion H; subst. apply in_app_or in Hin as [Hin|Hin].
    + eapply assign_new2_lead_time; eauto.
    + destruct (Hp replanned eq_refl c t Hin) as (_ & _ & b & i & Hb & ->).
      destruct Hbase as [Hbase|Hbase]; rewrite Hbase in Hb; [discriminate|].
      inversion Hb; subst. apply whole_hour_lead.
      assert (0 <= inject_Z (Z.of_nat i))%Q
        by (change 0%Q with (inject_Z 0); rewrite <- Zle_Qle; lia).
      lra.
Qed.

(** * Further properties of the planners *)

(** ** Rounding and the day of the week *)

Lemma round_proper (x y : Q) : (x == y)%Q -> Py.round x = Py.round y.
Proof.
  intros H. unfold Py.round. rewrite (Qfloor_comp x y H).
  assert (Hc : (x - inject_Z (Qfloor y) ?= 1 # 2)%Q
               = (y - inject_Z (Qfloor y) ?= 1 # 2)%Q).
  { apply Qcompare_comp; [rewrite H; reflexivity|reflexivity]. }
  now rewrite Hc.
Qed.

Lemma round_integer (k : Z) : Py.round (inject_Z k) = k.
Proof.
  unfold Py.round. rewrite Qfloor_Z.
  destruct (Qcompare_spec (inject_Z k - inject_Z k) (1 # 2)) as [H|H|H];
    [exfalso; lra|reflexivity|exfalso; lra].
Qed.

Lemma int_of_nonneg (k : Z) : 0 <= k -> Py.int (inject_Z k) = k.
Proof.
  intros H. unfold Py.int.
  assert (Hb : Qle_bool 0 (inject_Z k) = true).
  { apply Qle_bool_iff. change 0%Q with (inject_Z 0). rewrite <- Zle_Qle. lia. }
  rewrite Hb. apply Qfloor_Z.
Qed.

Lemma day_of_week_range (simulation_time : Q) :
  0 <= day_of_week simulation_time < 7.
Proof.
  unfold day_of_week.
  rewrite int_of_nonneg; apply Z.mod_pos_bound; lia.
Qed.

Lemma target_day_loop_closed (simulation_time : Q) (previous : option Z) :
  target_day_loop (day_of_week simulation_time) previous
  = Some (day_of_week simulation_time).
Proof.
  pose proof (day_of_week_range simulation_time) as Hr.
  unfold target_day_loop.
  change (Py.range 14) with (Py.range 13 ++ [13]).
  rewrite fold_left_app. cbn [fold_left]. f_equal.
  replace (day_of_week simulation_time + 13 + 1)
    with (day_of_week simulation_time + 2 * 7) by lia.
  rewrite Z_mod_plus_full. now apply Z.mod_small.
Qed.

(** X1: the loop over [range(14)] that precedes the priority branches of
    [plan] ends, at its fourteenth pass, on the day of the week of the call
    itself: the weekday test of [plan] is a test on [simulation_time], not on
    a later target day. *)
Theorem target_day_is_day_of_week (simulation_time : Q) (previous : option Z) :
  target_day_loop (day_of_week simulation_time) previous
  = Some (day_of_week simulation_time).
Proof. apply target_day_loop_closed. Qed.

(** ** The loops of [plan] in closed form *)

Lemma record_first_plan_diagnoses simulation_time self c :
  patient_diagnoses (record_first_plan simulation_time self c)
  = patient_diagnoses self.
Proof. unfold record_first_plan. now destruct (patient_first_plan self !! c). Qed.

Lemma track_first_plan_diagnoses simulation_time cases self :
  patient_diagnoses (fold_left (record_first_plan simulation_time) cases self)
  = patient_diagnoses self.
Proof.
  revert self. induction cases as [|c cases IH]; intros self; cbn [fold_left].
  - reflexivity.
  - rewrite IH. apply record_first_plan_diagnoses.
Qed.

(** The first-plan time of a case after the tracking loop. *)
Lemma track_first_plan_lookup simulation_time (cases : list nat) self (c : nat) :
  patient_first_plan
    (fold_left (record_first_plan simulation_time) cases self) !! c
  = match patient_first_plan self !! c with
    | Some t => Some t
    | None => if bool_decide (c ∈ cases) then Some simulation_time else None
    end.
Proof.
  revert self. induction cases as [|c' cases IH]; intros self; cbn [fold_left].
  - destruct (patient_first_plan self !! c); [reflexivity|].
    rewrite bool_decide_eq_false_2; [reflexivity|]. apply not_elem_of_nil.
  - rewrite IH. unfold record_first_plan.
    destruct (patient_first_plan self !! c') eqn:E'.
    + destruct (patient_first_plan self !! c) eqn:E; [reflexivity|].
      assert (c <> c') by congruence.
      assert (Hb : bool_decide (c ∈ cases) = bool_decide (c ∈ c' :: cases))
        by (apply bool_decide_ext; rewrite elem_of_cons; intuition congruence).
      now rewrite Hb.
    + cbn [patient_first_plan].
      destruct (decide (c' = c)) as [->|Hne].
      * rewrite lookup_insert_eq, E'.
        rewrite bool_decide_eq_true_2; [reflexivity|]. apply elem_of_cons. now left.
      * rewrite lookup_insert_ne by assumption.
        destruct (patient_first_plan self !! c); [reflexivity|].
        assert (Hb : bool_decide (c ∈ cases) = bool_decide (c ∈ c' :: cases))
        by (apply bool_decide_ext; rewrite elem_of_cons; intuition congruence).
      now rewrite Hb.
Qed.

Lemma plan_loop_closed simulation_time cases self loc :
  fold_left (OptimizedPlanner2.plan_case simulation_time) cases (self, loc)
  = (fold_left (record_first_plan simulation_time) cases self,
     match cases with
     | [] => loc
     | _ :: _ =>
         OptimizedPlanner2.mkLocals (Some (simulation_time + 24)%Q)
           (Some (day_of_week simulation_time))
           (OptimizedPlanner2.new_cases loc
            ++ map (fun c => (c, new_priority (day_of_week simulation_time)
                                   (patient_diagnoses self !! c))) cases)
     end).
Proof.
  revert self loc. induction cases as [|c cases IH]; intros self loc;
    cbn [fold_left]; [reflexivity|].
  unfold OptimizedPlanner2.plan_case at 2.
  rewrite target_day_loop_closed, IH.
  rewrite !record_first_plan_diagnoses. f_equal.
  destruct cases as [|c2 cases]; cbn [OptimizedPlanner2.new_cases map].
  - reflexivity.
  - now rewrite <- app_assoc.
Qed.

Lemma assign_new2_ids b simulation_time i new_cases :
  exists planned,
    OptimizedPlanner2.assign_new (Some b) simulation_time i new_cases
    = inr planned
    /\ map fst planned = map fst new_cases.
Proof.
  revert i. induction new_cases as [|[c p] rest IH]; intros i;
    cbn [OptimizedPlanner2.assign_new].
  - now exists [].
  - destruct (IH (S i)) as [planned [-> Hids]].
    eexists. split; [reflexivity|]. cbn [map fst]. now rewrite Hids.
Qed.

Lemma assign_new1_ids b simulation_time i new_cases :
  map fst (OptimizedPlanner.assign_new b simulation_time i new_cases)
  = map fst new_cases.
Proof.
  revert i. induction new_cases as [|[c p] rest IH]; intros i;
    cbn [OptimizedPlanner.assign_new map fst]; [reflexivity|].
  now rewrite IH.
Qed.

(** With [base_time] bound the replanning loop cannot raise: it stamps and
    emits the first [min(cap, len)] candidates in order. *)
Lemma emit_replans_closed cap self b simulation_time replan_cases :
  emit_replans cap self (Some b) simulation_time replan_cases
  = (fold_left (record_replanned simulation_time)
       (map candidate_id (take (Nat.min cap (length replan_cases)) replan_cases))
       self,
     inr (replan_entries b
            (take (Nat.min cap (length replan_cases)) replan_cases))).
Proof.
  unfold emit_replans.
  assert (Hn : (Nat.min cap (length replan_cases) <= length replan_cases)%nat)
    by lia.
  revert Hn. generalize (Nat.min cap (length replan_cases)) as n.
  induction n as [|n IH]; intros Hn.
  - reflexivity.
  - rewrite seq_S, fold_left_app, IH by lia. cbn [fold_left Nat.add].
    unfold emit_step.
    destruct (replan_cases !! n) as [[[c p] w]|] eqn:Hx;
      [|apply lookup_ge_None in Hx; unfold candidate in *; lia].
    unfold candidate in *.
    rewrite (take_S_r _ _ _ Hx), map_app, fold_left_app.
    cbn [map fold_left candidate_id fst]. f_equal. f_equal.
    unfold replan_entries. rewrite imap_app. cbn [imap candidate_id fst].
    rewrite Nat.add_0_r, length_take_le; [reflexivity|].
    unfold candidate in *. lia.
Qed.

Lemma emit_replans_nil cap self base_time simulation_time :
  emit_replans cap self base_time simulation_time [] = (self, inr []).
Proof.
  unfold emit_replans. cbn [length]. now rewrite Nat.min_0_r.
Qed.

(** The candidates of a completed loop are the cases that pass the
    cooldown test, in the order of [cases_to_replan]. *)
Lemma select_replans_ids prio self target_day simulation_time cases cands :
  select_replans prio self target_day simulation_time cases = inr cands ->
  map candidate_id cands
  = List.filter (cooldown_passed self simulation_time) cases.
Proof.
  revert cands. induction cases as [|c cases IH]; intros cands H;
    cbn [select_replans List.filter] in *.
  - now inversion H.
  - unfold cooldown_passed at 1.
    destruct (Py.ltb _ 24); cbn [negb]; [now apply IH|].
    destruct target_day as [td|]; [|discriminate].
    destruct (select_replans prio self (Some td) simulation_time cases)
      as [e|l]; [discriminate|].
    inversion H; subst. cbn [map candidate_id fst]. f_equal. now apply IH.
Qed.

(** With [target_day] unbound the loop completes only if every case is
    skipped. *)
Lemma select_replans_unbound prio self simulation_time cases cands :
  select_replans prio self None simulation_time cases = inr cands ->
  cands = [].
Proof.
  revert cands. induction cases as [|c cases IH]; intros cands H;
    cbn [select_replans] in H.
  - now inversion H.
  - destruct (Py.ltb _ 24); [now apply IH|discriminate].
Qed.

Lemma diagnosis_loop_last self l x :
  OptimizedPlanner.diagnosis_loop self (l ++ [x])
  = Some (x, patient_diagnoses self !! x).
Proof.
  unfold OptimizedPlanner.diagnosis_loop. now rewrite fold_left_app.
Qed.

Lemma new_cases_of_closed self l x simulation_time :
  OptimizedPlanner.new_cases_of self (l ++ [x]) simulation_time
  = inr (day_of_week simulation_time,
         [(x, new_priority (day_of_week simulation_time)
                (patient_diagnoses self !! x))]).
Proof.
  unfold OptimizedPlanner.new_cases_of.
  now rewrite target_day_loop_closed, diagnosis_loop_last.
Qed.

Lemma new_cases_of_empty self simulation_time :
  OptimizedPlanner.new_cases_of self [] simulation_time
  = inl (UnboundLocalError "diagnosis").
Proof.
  unfold OptimizedPlanner.new_cases_of.
  now rewrite target_day_loop_closed.
Qed.

Lemma plan_of_parts v self cases_to_plan cases_to_replan simulation_time :
  plan_of v self cases_to_plan cases_to_replan simulation_time
  = (fst (plan_parts_of v self cases_to_plan cases_to_replan simulation_time),
     match snd (plan_parts_of v self cases_to_plan cases_to_replan
                  simulation_time) with
     | inl e => inl e
     | inr (fresh, replanned) => inr (fresh ++ replanned)
     end).
Proof.
  destruct v; cbn [plan_of plan_parts_of];
    unfold OptimizedPlanner.plan, OptimizedPlanner2.plan.
  - now destruct (OptimizedPlanner.plan_parts _ _ _ _) as [s [e|[f r]]].
  - now destruct (OptimizedPlanner2.plan_parts _ _ _ _) as [s [e|[f r]]].
Qed.

(** A call that returns, taken apart: the planner after the first-plan
    tracking, the candidates that passed the cooldown test, and the
    candidates the cap keeps after sorting. *)
Lemma plan_parts_success v self cases_to_plan cases_to_replan simulation_time
    self' fresh replanned :
  plan_parts_of v self cases_to_plan cases_to_replan simulation_time
  = (self', inr (fresh, replanned)) ->
  exists cands target_day,
    let self1 :=
      fold_left (record_first_plan simulation_time) cases_to_plan self in
    let sorted := stable_sort candidate_before cands in
    let kept := take (Nat.min (replan_cap v) (length sorted)) sorted in
    select_replans (replan_priority_of v) self1 target_day simulation_time
      cases_to_replan = inr cands
    /\ self' = fold_left (record_replanned simulation_time)
                 (map candidate_id kept) self1
    /\ replanned = replan_entries (simulation_time + 24) kept
    /\ map fst fresh = new_case_ids v cases_to_plan
    /\ (v = V1 -> cases_to_plan <> []).
Proof.
  destruct v; cbn [plan_parts_of replan_cap replan_priority_of new_case_ids].
  - unfold OptimizedPlanner.plan_parts.
    set (self1 := fold_left (record_first_plan simulation_time) cases_to_plan self).
    induction cases_to_plan as [|x l _] using rev_ind.
    { rewrite new_cases_of_empty. discriminate. }
    rewrite new_cases_of_closed.
    destruct (select_replans _ self1 _ simulation_time cases_to_replan)
      as [e|cands] eqn:Es; [discriminate|].
    rewrite emit_replans_closed. intros H. inversion H; subst.
    exists cands, (Some (day_of_week simulation_time)).
    cbv zeta. split; [exact Es|]. do 2 (split; [reflexivity|]). split.
    + cbn [OptimizedPlanner.assign_new map fst]. now rewrite last_last.
    + intros _ Hnil. now destruct l.
  - unfold OptimizedPlanner2.plan_parts, OptimizedPlanner2.plan_loop.
    rewrite plan_loop_closed.
    destruct cases_to_plan as [|c ps].
    + cbn [OptimizedPlanner2.base_time OptimizedPlanner2.target_day
           OptimizedPlanner2.new_cases OptimizedPlanner2.assign_new fold_left].
      destruct (select_replans _ self None simulation_time cases_to_replan)
        as [e|cands] eqn:Es; [discriminate|].
      pose proof (select_replans_unbound _ _ _ _ _ Es) as ->.
      cbn [stable_sort fold_right]. rewrite emit_replans_nil.
      intros H. inversion H; subst.
      exists [], None. cbv zeta. split; [exact Es|].
      do 3 (split; [reflexivity|]). discriminate.
    + cbn [OptimizedPlanner2.base_time OptimizedPlanner2.target_day
           OptimizedPlanner2.new_cases app].
      destruct (assign_new2_ids (simulation_time + 24) simulation_time 0
                  (map (fun c0 => (c0, new_priority (day_of_week simulation_time)
                                         (patient_diagnoses self !! c0)))
                     (c :: ps))) as [planned [Ha Hids]].
      rewrite Ha.
      destruct (select_replans _ _ _ simulation_time cases_to_replan)
        as [e|cands] eqn:Es; [discriminate|].
      rewrite emit_replans_closed. intros H. inversion H; subst.
      exists cands, (Some (day_of_week simulation_time)).
      cbv zeta. split; [exact Es|]. do 2 (split; [reflexivity|]). split.
      * rewrite Hids, map_map. cbn [fst]. apply map_id.
      * discriminate.
Qed.

(** With a case to plan, every name the later loops read is bound. *)
Lemma plan_parts_nonempty v self cases_to_plan cases_to_replan simulation_time :
  cases_to_plan <> [] ->
  exists self' fresh replanned,
    plan_parts_of v self cases_to_plan cases_to_replan simulation_time
    = (self', inr (fresh, replanned)).
Proof.
  intros Hne.
  destruct v; cbn [plan_parts_of].
  - unfold OptimizedPlanner.plan_parts.
    set (self1 := fold_left (record_first_plan simulation_time) cases_to_plan self).
    induction cases_to_plan as [|x l _] using rev_ind; [contradiction|].
    rewrite new_cases_of_closed.
    destruct (select_replans_total OptimizedPlanner.replan_priority self1
                (day_of_week simulation_time) simulation_time cases_to_replan)
      as [cands ->].
    rewrite emit_replans_closed. eauto.
  - unfold OptimizedPlanner2.plan_parts, OptimizedPlanner2.plan_loop.
    rewrite plan_loop_closed.
    destruct cases_to_plan as [|c ps]; [contradiction|].
    cbn [OptimizedPlanner2.base_time OptimizedPlanner2.target_day
         OptimizedPlanner2.new_cases app].
    destruct (assign_new2_ids (simulation_time + 24) simulation_time 0
                (map (fun c0 => (c0, new_priority (day_of_week simulation_time)
                                       (patient_diagnoses self !! c0)))
                   (c :: ps))) as [planned [-> _]].
    destruct (select_replans_total OptimizedPlanner2.replan_priority
                (fold_left (record_first_plan simulation_time) (c :: ps) self)
                (day_of_week simulation_time) simulation_time cases_to_replan)
      as [cands ->].
    rewrite emit_replans_closed. eauto.
Qed.

(** A call that raises has only tracked the first-plan times. *)
Lemma plan_parts_failure v self cases_to_plan cases_to_replan simulation_time
    self' e :
  plan_parts_of v self cases_to_plan cases_to_replan simulation_time
  = (self', inl e) ->
  self' = fold_left (record_first_plan simulation_time) cases_to_plan self.
Proof.
  destruct v; cbn [plan_parts_of].
  - unfold OptimizedPlanner.plan_parts.
    set (self1 := fold_left (record_first_plan simulation_time) cases_to_plan self).
    destruct (OptimizedPlanner.new_cases_of self1 cases_to_plan simulation_time)
      as [e'|[td ncs]]; [intros H; now inversion H|].
    destruct (select_replans _ self1 _ simulation_time cases_to_replan)
      as [e'|cands]; [intros H; now inversion H|].
    rewrite emit_replans_closed. discriminate.
  - unfold OptimizedPlanner2.plan_parts, OptimizedPlanner2.plan_loop.
    rewrite plan_loop_closed.
    destruct cases_to_plan as [|c ps].
    + cbn [OptimizedPlanner2.base_time OptimizedPlanner2.target_day
           OptimizedPlanner2.new_cases OptimizedPlanner2.assign_new fold_left].
      destruct (select_replans _ self None simulation_time cases_to_replan)
        as [e'|cands] eqn:Es; [intros H; now inversion H|].
      pose proof (select_replans_unbound _ _ _ _ _ Es) as ->.
      cbn [stable_sort fold_right]. rewrite emit_replans_nil. discriminate.
    + cbn [OptimizedPlanner2.base_time OptimizedPlanner2.target_day
           OptimizedPlanner2.new_cases app].
      destruct (assign_new2_ids (simulation_time + 24) simulation_time 0
                  (map (fun c0 => (c0, new_priority (day_of_week simulation_time)
                                         (patient_diagnoses self !! c0)))
                     (c :: ps))) as [planned [-> _]].
      destruct (select_replans _ _ _ simulation_time cases_to_replan)
        as [e'|cands]; [intros H; now inversion H|].
      rewrite emit_replans_closed. discriminate.
Qed.

Lemma record_replanned_fold simulation_time ids self :
  patient_diagnoses (fold_left (record_replanned simulation_time) ids self)
  = patient_diagnoses self
  /\ patient_first_plan (fold_left (record_replanned simulation_time) ids self)
     = patient_first_plan self
  /\ forall c : nat,
       last_replanned (fold_left (record_replanned simulation_time) ids self) !! c
       = if bool_decide (c ∈ ids) then Some simulation_time
         else last_replanned self !! c.
Proof.
  revert self. induction ids as [|k ids IH]; intros self; cbn [fold_left].
  - do 2 (split; [reflexivity|]). intros c.
    rewrite bool_decide_eq_false_2; [reflexivity|apply not_elem_of_nil].
  - destruct (IH (record_replanned simulation_time self k)) as (Hd & Hf & Hl).
    rewrite Hd, Hf. do 2 (split; [reflexivity|]). intros c. rewrite Hl.
    cbn [record_replanned last_replanned].
    destruct (decide (c ∈ ids)) as [Hin|Hnin].
    + rewrite !bool_decide_eq_true_2; [reflexivity| |assumption].
      apply elem_of_cons. now right.
    + rewrite (bool_decide_eq_false_2 _ Hnin).
      destruct (decide (k = c)) as [->|Hne].
      * rewrite lookup_insert_eq.
        rewrite bool_decide_eq_true_2; [reflexivity|]. apply elem_of_cons. now left.
      * rewrite lookup_insert_ne by assumption.
        rewrite bool_decide_eq_false_2; [reflexivity|].
        rewrite elem_of_cons. intuition congruence.
Qed.

Lemma imap_ids (g : nat -> candidate -> plan_entry) kept :
  (forall i x, fst (g i x) = candidate_id x) ->
  map fst (imap g kept) = map candidate_id kept.
Proof.
  revert g. induction kept as [|x kept IH]; intros g Hg; [reflexivity|].
  cbn [imap map]. rewrite Hg. f_equal. apply IH. intros i y. apply Hg.
Qed.

Lemma replan_entries_ids b kept :
  map fst (replan_entries b kept) = map candidate_id kept.
Proof. unfold replan_entries. now apply imap_ids. Qed.

Lemma length_insert_sorted {A} (before : A -> A -> bool) x l :
  length (insert_sorted before x l) = S (length l).
Proof.
  induction l as [|y l IH]; cbn [insert_sorted length]; [reflexivity|].
  destruct (before y x); cbn [length]; now rewrite ?IH.
Qed.

Lemma length_stable_sort {A} (before : A -> A -> bool) l :
  length (stable_sort before l) = length l.
Proof.
  induction l as [|x l IH]; cbn [stable_sort fold_right length]; [reflexivity|].
  fold (stable_sort before l). now rewrite length_insert_sorted, IH.
Qed.

(** ** What a call of [plan] returns and records *)

(** X2: with at least one case in [cases_to_plan], [plan] returns a list
    in both optimized files, whatever [cases_to_replan] and the planner
    hold: every local name the replanning half reads has been assigned. *)
Theorem plan_returns_with_new_cases (v : version) (self : Planner)
    (cases_to_plan cases_to_replan : list nat) (simulation_time : Q) :
  cases_to_plan <> [] ->
  exists planned_cases,
    snd (plan_of v self cases_to_plan cases_to_replan simulation_time)
    = inr planned_cases.
Proof.
  intros Hne.
  destruct (plan_parts_nonempty v self cases_to_plan cases_to_replan
              simulation_time Hne) as (self' & fresh & replanned & H).
  rewrite plan_of_parts, H. cbn [snd]. eauto.
Qed.

Lemma plan_returns_with_new_cases_witness :
  exists planned_cases,
    snd (plan_of V1 fresh_planner [1%nat] [2%nat] 100) = inr planned_cases.
Proof.
  apply (plan_returns_with_new_cases V1 fresh_planner [1%nat] [2%nat] 100).
  discriminate.
Defined.

(** X3: [plan] sets the first-plan time of a case once: a time on record
    is never overwritten, every case of [cases_to_plan] without one gets
    [simulation_time], and no other case gets one.  This holds also for a
    call that raises, and [plan] never writes a diagnosis. *)
Theorem plan_first_plan_ledger (v : version) (self : Planner)
    (cases_to_plan cases_to_replan : list nat) (simulation_time : Q) (c : nat) :
  let self' :=
    fst (plan_of v self cases_to_plan cases_to_replan simulation_time) in
  patient_first_plan self' !! c
  = match patient_first_plan self !! c with
    | Some t => Some t
    | None =>
        if bool_decide (c ∈ cases_to_plan) then Some simulation_time else None
    end
  /\ patient_diagnoses self' = patient_diagnoses self.
Proof.
  cbv zeta. rewrite plan_of_parts. cbn [fst].
  destruct (plan_parts_of v self cases_to_plan cases_to_replan simulation_time)
    as [self' [e|[fresh replanned]]] eqn:E; cbn [fst].
  - apply plan_parts_failure in E. subst self'.
    now rewrite track_first_plan_lookup, track_first_plan_diagnoses.
  - apply plan_parts_success in E as (cands & td & _ & -> & _).
    destruct (record_replanned_fold simulation_time
                (map candidate_id
                   (take (Nat.min (replan_cap v)
                            (length (stable_sort candidate_before cands)))
                      (stable_sort candidate_before cands)))
                (fold_left (record_first_plan simulation_time)
                   cases_to_plan self)) as (Hd & Hf & _).
    rewrite Hd, Hf.
    now rewrite track_first_plan_lookup, track_first_plan_diagnoses.
Qed.

(** X4: a call of [plan] rewrites the last-replan time of exactly the
    cases its replanning loop emits, to [simulation_time]; every other case,
    and every case when the call raises, keeps the time it had. *)
Theorem plan_stamps_exactly_the_replanned (v : version) (self : Planner)
    (cases_to_plan cases_to_replan : list nat) (simulation_time : Q) (c : nat) :
  let r := plan_parts_of v self cases_to_plan cases_to_replan simulation_time in
  last_replanned (fst r) !! c
  = if bool_decide (c ∈ replanned_ids (snd r)) then Some simulation_time
    else last_replanned self !! c.
Proof.
  cbv zeta.
  destruct (plan_parts_of v self cases_to_plan cases_to_replan simulation_time)
    as [self' [e|[fresh replanned]]] eqn:E; cbn [fst snd replanned_ids].
  - apply plan_parts_failure in E. subst self'.
    rewrite track_first_plan_last_replanned.
    rewrite bool_decide_eq_false_2; [reflexivity|apply not_elem_of_nil].
  - apply plan_parts_success in E as (cands & td & _ & -> & -> & _).
    rewrite replan_entries_ids.
    destruct (record_replanned_fold simulation_time
                (map candidate_id
                   (take (Nat.min (replan_cap v)
                            (length (stable_sort candidate_before cands)))
                      (stable_sort candidate_before cands)))
                (fold_left (record_first_plan simulation_time)
                   cases_to_plan self)) as (_ & _ & Hl).
    now rewrite Hl, track_first_plan_last_replanned.
Qed.

(** X5: the replanning loop of a call that returns emits
    [min(cap, survivors)] entries, the cap being 10 in [OptimizedPlanner.py]
    and 35 in [OptimizedPlanner2.0.py] and the survivors the cases of
    [cases_to_replan], counted with repetitions, that pass the cooldown
    test. *)
Theorem replans_capped (v : version) (self self' : Planner)
    (cases_to_plan cases_to_replan : list nat) (simulation_time : Q)
    (fresh replanned : list plan_entry) :
  plan_parts_of v self cases_to_plan cases_to_replan simulation_time
  = (self', inr (fresh, replanned)) ->
  length replanned
  = Nat.min (replan_cap v)
      (length (List.filter (cooldown_passed self simulation_time)
                 cases_to_replan))
  /\ (length replanned <= replan_cap v)%nat.
Proof.
  intros E.
  apply plan_parts_success in E as (cands & td & Hs & _ & -> & _).
  apply select_replans_ids in Hs.
  unfold cooldown_passed in Hs.
  rewrite track_first_plan_last_replanned in Hs.
  fold (cooldown_passed self simulation_time) in Hs.
  rewrite <- Hs, length_map.
  unfold replan_entries. rewrite length_imap, length_take, length_stable_sort.
  split; lia.
Qed.

Lemma replans_capped_witness :
  length [(2%nat, 124); (3%nat, 125)]
  = Nat.min (replan_cap V2)
      (length (List.filter (cooldown_passed fresh_planner 100) [2%nat; 3%nat]))
  /\ (length [(2%nat, 124); (3%nat, 125)] <= replan_cap V2)%nat.
Proof.
  apply (replans_capped V2 fresh_planner
           (fst (plan_parts_of V2 fresh_planner [1%nat] [2%nat; 3%nat] 100))
           [1%nat] [2%nat; 3%nat] 100 [(1%nat, 128)]).
  vm_compute. reflexivity.
Defined.

(** X6: at a simulation time of [z] whole hours, the replanned entry of
    rank [i] in the returned list is admitted at exactly [z + 24 + i]: the
    replans of one call occupy consecutive hourly slots from the minimum
    lead time on. *)
Theorem replans_hourly_slots (v : version) (self self' : Planner)
    (cases_to_plan cases_to_replan : list nat) (z : Z)
    (fresh replanned : list plan_entry) (i : nat) (c : nat) (t : Z) :
  plan_parts_of v self cases_to_plan cases_to_replan (inject_Z z)
  = (self', inr (fresh, replanned)) ->
  replanned !! i = Some (c, t) ->
  t = z + 24 + Z.of_nat i.
Proof.
  intros E Hi.
  apply plan_parts_success in E as (cands & td & _ & _ & -> & _).
  unfold replan_entries in Hi. rewrite list_lookup_imap in Hi.
  destruct (take _ _ !! i) as [x|]; [|discriminate].
  cbn in Hi. inversion Hi; subst.
  rewrite <- (round_integer (z + 24 + Z.of_nat i)).
  apply round_proper. rewrite !inject_Z_plus. reflexivity.
Qed.

Lemma replans_hourly_slots_witness : 125 = 100 + 24 + Z.of_nat 1.
Proof.
  apply (replans_hourly_slots V2 fresh_planner
           (fst (plan_parts_of V2 fresh_planner [1%nat] [2%nat; 3%nat] 100))
           [1%nat] [2%nat; 3%nat] 100 [(1%nat, 128)]
           [(2%nat, 124); (3%nat, 125)] 1 3%nat 125).
  - vm_compute. reflexivity.
  - reflexivity.
Defined.

(** X7: when [plan] of [OptimizedPlanner2.0.py] returns, the entries for
    new cases are one per element of [cases_to_plan], in the same order:
    no new case is left out. *)
Theorem plan2_emits_each_new_case (self self' : Planner)
    (cases_to_plan cases_to_replan : list nat) (simulation_time : Q)
    (fresh replanned : list plan_entry) :
  OptimizedPlanner2.plan_parts self cases_to_plan cases_to_replan
    simulation_time = (self', inr (fresh, replanned)) ->
  map fst fresh = cases_to_plan.
Proof.
  intros E.
  apply (plan_parts_success V2) in E as (cands & td & _ & _ & _ & H & _).
  exact H.
Qed.

Lemma plan2_emits_each_new_case_witness :
  map fst [(1%nat, 228); (2%nat, 228); (3%nat, 228)] = [1%nat; 2%nat; 3%nat].
Proof.
  apply (plan2_emits_each_new_case fresh_planner
           (fst (OptimizedPlanner2.plan_parts fresh_planner
                   [1%nat; 2%nat; 3%nat] [] 200))
           [1%nat; 2%nat; 3%nat] [] 200 _ []).
  vm_compute. reflexivity.
Defined.

(** X8: when [plan] of [OptimizedPlanner.py] returns, [cases_to_plan] is
    not empty and exactly one entry is emitted for it, for its last
    element: the statements that assign a priority and an admission time run
    once, after the loop over [cases_to_plan], so every earlier new case is
    left unplanned by the call. *)
Theorem plan1_emits_last_new_case_only (self self' : Planner)
    (cases_to_plan cases_to_replan : list nat) (simulation_time : Q)
    (fresh replanned : list plan_entry) :
  OptimizedPlanner.plan_parts self cases_to_plan cases_to_replan
    simulation_time = (self', inr (fresh, replanned)) ->
  cases_to_plan <> []
  /\ map fst fresh = [List.last cases_to_plan 0%nat].
Proof.
  intros E.
  apply (plan_parts_success V1) in E as (cands & td & _ & _ & _ & H & Hne).
  split; [now apply Hne|exact H].
Qed.

Lemma plan1_emits_last_new_case_only_witness :
  [1%nat; 2%nat; 3%nat] <> []
  /\ map fst [(3%nat, 228)] = [List.last [1%nat; 2%nat; 3%nat] 0%nat].
Proof.
  apply (plan1_emits_last_new_case_only fresh_planner
           (fst (OptimizedPlanner.plan_parts fresh_planner
                   [1%nat; 2%nat; 3%nat] [] 200))
           [1%nat; 2%nat; 3%nat] [] 200 _ []).
  vm_compute. reflexivity.
Defined.

Lemma first_admission_whole (z p : Z) (s : Q) :
  (s == 0)%Q ->
  Py.round
    (Py.max
       (if p =? 0 then inject_Z z + 24 + s
        else if p =? 1 then inject_Z z + 24 + 2 + s
        else inject_Z z + 24 + 4 + s)
       (inject_Z z + 24))
  = z + 24 + admission_offset p.
Proof.
  intros Hs. unfold admission_offset.
  rewrite <- (round_integer (z + 24 + _)).
  apply round_proper. unfold Py.max.
  match goal with |- context [Py.ltb ?a ?b] => destruct (Py.ltb a b) eqn:E end.
  - apply ltb_lt in E. exfalso.
    destruct (p =? 0); [|destruct (p =? 1)]; lra.
  - rewrite !inject_Z_plus.
    destruct (p =? 0); [|destruct (p =? 1)];
      cbn [inject_Z]; unfold inject_Z; lra.
Qed.

Lemma first_new_case_admission_aux (v : version) (self self' : Planner)
    (cases_to_plan cases_to_replan : list nat) (z : Z)
    (fresh replanned : list plan_entry) (c : nat) (t : Z)
    (rest : list plan_entry) :
  plan_parts_of v self cases_to_plan cases_to_replan (inject_Z z)
  = (self', inr (fresh, replanned)) ->
  fresh = (c, t) :: rest ->
  t = z + 24
      + admission_offset
          (new_priority (day_of_week (inject_Z z)) (patient_diagnoses self !! c)).
Proof.
  destruct v; cbn [plan_parts_of].
  - unfold OptimizedPlanner.plan_parts.
    induction cases_to_plan as [|x l _] using rev_ind.
    { rewrite new_cases_of_empty. discriminate. }
    rewrite new_cases_of_closed, track_first_plan_diagnoses.
    destruct (select_replans _ _ _ (inject_Z z) cases_to_replan)
      as [e|cands]; [discriminate|].
    rewrite emit_replans_closed. intros H Hf.
    inversion H as [[Hs Hfr Hrp]]. rewrite Hf in Hfr.
    cbn [OptimizedPlanner.assign_new] in Hfr. inversion Hfr; subst.
    apply first_admission_whole. reflexivity.
  - unfold OptimizedPlanner2.plan_parts, OptimizedPlanner2.plan_loop.
    rewrite plan_loop_closed.
    destruct cases_to_plan as [|c0 ps].
    + cbn [OptimizedPlanner2.base_time OptimizedPlanner2.target_day
           OptimizedPlanner2.new_cases OptimizedPlanner2.assign_new fold_left].
      destruct (select_replans _ self None (inject_Z z) cases_to_replan)
        as [e|cands]; [discriminate|].
      destruct (emit_replans _ _ _ _ _) as [s [e|l]]; [discriminate|].
      intros H Hf. inversion H; subst. discriminate.
    + cbn [OptimizedPlanner2.base_time OptimizedPlanner2.target_day
           OptimizedPlanner2.new_cases app map OptimizedPlanner2.assign_new].
      destruct (OptimizedPlanner2.assign_new _ (inject_Z z) 1 _)
        as [e|planned]; [discriminate|].
      destruct (select_replans _ _ _ (inject_Z z) cases_to_replan)
        as [e|cands]; [discriminate|].
      destruct (emit_replans _ _ _ _ _) as [s [e|l]]; [discriminate|].
      intros H Hf. inversion H as [[Hs Hfr Hrp]]. rewrite Hf in Hfr.
      inversion Hfr; subst.
      apply first_admission_whole. reflexivity.
Qed.

(** X9: at a simulation time of [z] whole hours, the first entry [plan]
    emits for a new case is admitted at [z + 24], [z + 26] or [z + 28]
    according to the priority its diagnosis has on the day of the week of
    the call: 0, 1 or 2.  In [OptimizedPlanner.py] this is the only entry
    for a new case. *)
Theorem first_new_case_admission (v : version) (self self' : Planner)
    (cases_to_plan cases_to_replan : list nat) (z : Z)
    (fresh replanned : list plan_entry) (c : nat) (t : Z)
    (rest : list plan_entry) :
  plan_parts_of v self cases_to_plan cases_to_replan (inject_Z z)
  = (self', inr (fresh, replanned)) ->
  fresh = (c, t) :: rest ->
  t = z + 24
      + admission_offset
          (new_priority (day_of_week (inject_Z z)) (patient_diagnoses self !! c)).
Proof. apply first_new_case_admission_aux. Qed.

Lemma first_new_case_admission_witness :
  124 = 100 + 24
        + admission_offset
            (new_priority (day_of_week (inject_Z 100))
               (patient_diagnoses (mkPlanner {[ 1%nat := "A3"%string ]} ∅ ∅)
                !! 1%nat)).
Proof.
  apply (first_new_case_admission V2
           (mkPlanner {[ 1%nat := "A3"%string ]} ∅ ∅)
           (fst (plan_parts_of V2 (mkPlanner {[ 1%nat := "A3"%string ]} ∅ ∅)
                   [1%nat] [] (inject_Z 100)))
           [1%nat] [] 100 [(1%nat, 124)] [] 1%nat 124 []).
  - vm_compute. reflexivity.
  - reflexivity.
Defined.

(** ** Sorting *)

Section SortOrder.
Context {A : Type} (before : A -> A -> bool).
Hypothesis before_asym : forall x y, before x y = true -> before y x = false.
Hypothesis before_trans :
  forall x y z, before y x = false -> before z y = false -> before z x = false.

Lemma insert_sorted_perm x l : insert_sorted before x l ≡ₚ x :: l.
Proof.
  induction l as [|y l IH]; cbn [insert_sorted]; [reflexivity|].
  destruct (before y x); [|reflexivity].
  rewrite IH. apply Permutation_swap.
Qed.

Lemma stable_sort_perm l : stable_sort before l ≡ₚ l.
Proof.
  induction l as [|x l IH]; cbn [stable_sort fold_right]; [reflexivity|].
  fold (stable_sort before l). now rewrite insert_sorted_perm, IH.
Qed.

Lemma insert_sorted_sorted x l :
  StronglySorted (fun a b => before b a = false) l ->
  StronglySorted (fun a b => before b a = false) (insert_sorted before x l).
Proof.
  induction l as [|y l IH]; cbn [insert_sorted]; intros Hs.
  - repeat constructor.
  - apply StronglySorted_cons in Hs as [Hy Hs].
    destruct (before y x) eqn:E.
    + apply StronglySorted_cons. split; [|now apply IH].
      rewrite insert_sorted_perm. constructor; [now apply before_asym|exact Hy].
    + apply StronglySorted_cons. split.
      * constructor; [exact E|].
        eapply Forall_impl; [exact Hy|]. intros z Hz. cbv beta in *.
        now apply (before_trans x y z).
      * apply StronglySorted_cons. now split.
Qed.

Lemma stable_sort_sorted l :
  StronglySorted (fun a b => before b a = false) (stable_sort before l).
Proof.
  induction l as [|x l IH]; cbn [stable_sort fold_right]; [constructor|].
  now apply insert_sorted_sorted.
Qed.

End SortOrder.

Lemma candidate_before_spec (y x : candidate) :
  candidate_before y x = true
  <-> snd (fst y) < snd (fst x)
      \/ (snd (fst y) = snd (fst x) /\ (snd x < snd y)%Q).
Proof.
  destruct y as [[cy py] wy], x as [[cx px] wx]. cbn [candidate_before fst snd].
  rewrite orb_true_iff, andb_true_iff, Z.ltb_lt, Z.eqb_eq, ltb_lt.
  split; (intros [H|[H1 H2]]; [now left|right; split; [exact H1|lra]]).
Qed.

Lemma candidate_before_false (y x : candidate) :
  candidate_before y x = false
  <-> snd (fst x) < snd (fst y)
      \/ (snd (fst y) = snd (fst x) /\ (snd y <= snd x)%Q).
Proof.
  rewrite <- not_true_iff_false, candidate_before_spec.
  split.
  - intros H.
    destruct (Z.lt_trichotomy (snd (fst y)) (snd (fst x))) as [Hlt|[Heq|Hgt]].
    + exfalso. apply H. now left.
    + right. split; [exact Heq|].
      destruct (Qlt_le_dec (snd x) (snd y)) as [Hq|Hq]; [|exact Hq].
      exfalso. apply H. now right.
    + now left.
  - intros [H|[H1 H2]] [H'|[H1' H2']]; try lia. lra.
Qed.

Lemma candidate_before_asym (x y : candidate) :
  candidate_before x y = true -> candidate_before y x = false.
Proof.
  rewrite candidate_before_spec, candidate_before_false.
  intros [H|[H1 H2]]; [now left|right; split; [congruence|lra]].
Qed.

Lemma candidate_before_trans (x y z : candidate) :
  candidate_before y x = false -> candidate_before z y = false ->
  candidate_before z x = false.
Proof.
  rewrite !candidate_before_false.
  intros [H|[H1 H2]] [H'|[H1' H2']].
  - left. lia.
  - left. lia.
  - left. lia.
  - right. split; [congruence|lra].
Qed.

(** X10: the candidates that pass the cooldown test are emitted in the
    order of their priority and, within a priority, of decreasing wait time;
    when the cap cuts the list, no candidate that is dropped is strictly
    ahead of one that is kept in that order. *)
Theorem cap_keeps_most_urgent (v : version) (self self' : Planner)
    (cases_to_plan cases_to_replan : list nat) (simulation_time : Q)
    (fresh replanned : list plan_entry) :
  plan_parts_of v self cases_to_plan cases_to_replan simulation_time
  = (self', inr (fresh, replanned)) ->
  exists (cands kept dropped : list candidate) (target_day : option Z),
    select_replans (replan_priority_of v)
      (fold_left (record_first_plan simulation_time) cases_to_plan self)
      target_day simulation_time cases_to_replan = inr cands
    /\ cands ≡ₚ kept ++ dropped
    /\ map fst replanned = map candidate_id kept
    /\ StronglySorted (fun a b => candidate_before b a = false) kept
    /\ forall x y, In x kept -> In y dropped -> candidate_before y x = false.
Proof.
  intros E.
  apply plan_parts_success in E as (cands & td & Hs & _ & -> & _).
  set (sorted := stable_sort candidate_before cands).
  set (n := Nat.min (replan_cap v) (length sorted)).
  pose proof (stable_sort_sorted candidate_before candidate_before_asym
                candidate_before_trans cands) as Hsorted.
  fold sorted in Hsorted. rewrite <- (take_drop n sorted) in Hsorted.
  exists cands, (take n sorted), (drop n sorted), td.
  split; [exact Hs|]. split.
  { rewrite take_drop. symmetry. apply stable_sort_perm. }
  split; [apply replan_entries_ids|]. split.
  - eapply StronglySorted_app_1_l. exact Hsorted.
  - intros x y Hx Hy.
    apply (StronglySorted_app_1_elem_of _ _ _ _ _ Hsorted);
      now apply list_elem_of_In.
Qed.

Lemma cap_keeps_most_urgent_witness :
  exists (cands kept dropped : list candidate) (target_day : option Z),
    select_replans (replan_priority_of V2)
      (fold_left (record_first_plan 100) [1%nat] fresh_planner)
      target_day 100 [2%nat; 3%nat] = inr cands
    /\ cands ≡ₚ kept ++ dropped
    /\ map fst [(2%nat, 124); (3%nat, 125)] = map candidate_id kept
    /\ StronglySorted (fun a b => candidate_before b a = false) kept
    /\ forall x y, In x kept -> In y dropped -> candidate_before y x = false.
Proof.
  apply (cap_keeps_most_urgent V2 fresh_planner
           (fst (plan_parts_of V2 fresh_planner [1%nat] [2%nat; 3%nat] 100))
           [1%nat] [2%nat; 3%nat] 100 [(1%nat, 128)]).
  vm_compute. reflexivity.
Defined.

(** ** [HeuristicPlanner.plan] *)

Lemma dict_set_keys d k v k' :
  In k' (map fst (HeuristicPlanner.dict_set d k v))
  <-> k' = k \/ In k' (map fst d).
Proof.
  induction d as [|[k0 v0] d IH]; cbn [HeuristicPlanner.dict_set map fst In].
  - intuition.
  - destruct (decide (k0 = k)) as [->|Hne]; cbn [map fst In].
    + intuition.
    + rewrite IH. intuition.
Qed.

Lemma dict_set_nodup d k v :
  NoDup (map fst d) -> NoDup (map fst (HeuristicPlanner.dict_set d k v)).
Proof.
  induction d as [|[k0 v0] d IH]; cbn [HeuristicPlanner.dict_set map fst];
    intros Hnd.
  - repeat constructor. apply not_elem_of_nil.
  - apply NoDup_cons in Hnd as [Hk0 Hnd].
    destruct (decide (k0 = k)) as [->|Hne]; cbn [map fst].
    + now apply NoDup_cons.
    + apply NoDup_cons. split; [|now apply IH].
      rewrite list_elem_of_In, dict_set_keys.
      rewrite list_elem_of_In in Hk0. intuition.
Qed.

Lemma dict_set_in d k v k' v' :
  NoDup (map fst d) ->
  In (k', v') (HeuristicPlanner.dict_set d k v)
  <-> (k' = k /\ v' = v) \/ (k' <> k /\ In (k', v') d).
Proof.
  induction d as [|[k0 v0] d IH]; cbn [HeuristicPlanner.dict_set map fst In];
    intros Hnd.
  - split; [intros [H|[]]; inversion H; now left|].
    intros [[H1 H2]|[_ []]]. subst. now left.
  - apply NoDup_cons in Hnd as [Hk0 Hnd].
    rewrite list_elem_of_In in Hk0.
    destruct (decide (k0 = k)) as [Heq|Hne]; cbn [In].
    + subst k0. split.
      * intros [H|H]; [inversion H; now left|].
        right. split; [|now right].
        intros Hk. subst k'. apply Hk0. apply in_map_iff. now exists (k, v').
      * intros [[H1 H2]|[Hne [H|H]]]; [subst; now left| |now right].
        inversion H; subst. contradiction.
    + rewrite (IH Hnd). split.
      * intros [H|[H|[H1 H2]]].
        -- inversion H; subst. right. split; [congruence|now left].
        -- now left.
        -- right. split; [exact H1|now right].
      * intros [H|[H1 [H2|H2]]]; [right; now left|now left|].
        right. right. now split.
Qed.

(** [calculate_priority] returns exactly on an instance that has a
    [patient_info] dictionary, whatever the case and the flag. *)
Lemma calculate_priority_returns hself k simulation_time b :
  (exists v,
      HeuristicPlanner.calculate_priority hself k simulation_time b = inr v)
  <-> HeuristicPlanner.patient_info hself <> None.
Proof.
  unfold HeuristicPlanner.calculate_priority.
  destruct (HeuristicPlanner.patient_info hself) as [pi|].
  - split; [discriminate|eauto].
  - split; [intros [v H]; discriminate|congruence].
Qed.

(** The dictionary after a scoring loop that completes. *)
Lemma score_cases_spec hself simulation_time b l d0 d :
  HeuristicPlanner.score_cases hself simulation_time b l d0 = inr d ->
  NoDup (map fst d0) ->
  NoDup (map fst d)
  /\ (l <> [] -> HeuristicPlanner.patient_info hself <> None)
  /\ forall k v,
       In (k, v) d
       <-> (In k l
            /\ HeuristicPlanner.calculate_priority hself k simulation_time b
               = inr v)
           \/ (~ In k l /\ In (k, v) d0).
Proof.
  revert d0. induction l as [|k0 l IH]; intros d0 H Hnd;
    cbn [HeuristicPlanner.score_cases] in H.
  - inversion H; subst. split; [exact Hnd|]. split; [congruence|].
    intros k v. cbn [In]. intuition.
  - destruct (HeuristicPlanner.calculate_priority hself k0 simulation_time b)
      as [e|p] eqn:E; [discriminate|].
    destruct (IH _ H (dict_set_nodup _ k0 p Hnd)) as (Hnd' & _ & Hin).
    split; [exact Hnd'|]. split.
    { intros _. apply (calculate_priority_returns hself k0 simulation_time b).
      eauto. }
    intros k v. rewrite Hin, (dict_set_in _ _ _ _ _ Hnd). cbn [In].
    destruct (in_dec Nat.eq_dec k l) as [Hl|Hl];
      destruct (decide (k = k0)) as [Heq|Hne].
    + subst k. intuition.
    + intuition.
    + subst k. split.
      * intros [[H1 _]|[_ [[_ H2]|[H2 _]]]]; [contradiction| |congruence].
        subst v. left. split; [now left|exact E].
      * intros [[_ H2]|[H1 _]]; [|exfalso; apply H1; now left].
        right. split; [exact Hl|]. left. split; [reflexivity|congruence].
    + intuition congruence.
Qed.

(** A call of [plan] that returns, taken apart: the dictionary it sorted
    holds the replan score for a case of [cases_to_replan] and the plain
    score for any other case of [cases_to_plan]. *)
Lemma heuristic_plan_returns hself cases_to_plan cases_to_replan
    simulation_time planned :
  HeuristicPlanner.plan hself cases_to_plan cases_to_replan simulation_time
  = inr planned ->
  exists d,
    planned = HeuristicPlanner.plan_sorted simulation_time d
    /\ NoDup (map fst d)
    /\ (cases_to_plan ++ cases_to_replan <> [] ->
        HeuristicPlanner.patient_info hself <> None)
    /\ forall k v,
         In (k, v) d
         <-> (In k cases_to_replan
              /\ HeuristicPlanner.calculate_priority hself k simulation_time
                   true = inr v)
             \/ (~ In k cases_to_replan /\ In k cases_to_plan
                 /\ HeuristicPlanner.calculate_priority hself k
                      simulation_time false = inr v).
Proof.
  unfold HeuristicPlanner.plan.
  destruct (HeuristicPlanner.score_cases hself simulation_time false
              cases_to_plan []) as [e|d1] eqn:E1; [discriminate|].
  destruct (HeuristicPlanner.score_cases hself simulation_time true
              cases_to_replan d1) as [e|d2] eqn:E2; [discriminate|].
  intros H. inversion H; subst. exists d2.
  destruct (score_cases_spec _ _ _ _ _ _ E1 (NoDup_nil_2)) as (Hnd1 & Hp1 & Hin1).
  destruct (score_cases_spec _ _ _ _ _ _ E2 Hnd1) as (Hnd2 & Hp2 & Hin2).
  split; [reflexivity|]. split; [exact Hnd2|]. split.
  - intros Hne. destruct cases_to_plan as [|c ps]; [|now apply Hp1].
    now apply Hp2.
  - intros k v. rewrite Hin2, Hin1. cbn [In]. intuition.
Qed.

Lemma plan_sorted_ids simulation_time d :
  map fst (HeuristicPlanner.plan_sorted simulation_time d)
  = map fst (stable_sort (fun y x : nat * Q => Py.ltb (snd x) (snd y)) d).
Proof.
  unfold HeuristicPlanner.plan_sorted. rewrite map_map.
  apply map_ext. now intros [k p].
Qed.

(** X11: the list [HeuristicPlanner.plan] returns, when it returns, has
    exactly one entry for every case that occurs in [cases_to_plan] or
    [cases_to_replan], however often it occurs, and no entry for any other
    case.  (With a case in either list the call returns only on an instance
    that has been given a [patient_info] dictionary.) *)
Theorem heuristic_plan_one_entry_per_case
    (hself : HeuristicPlanner.Planner)
    (cases_to_plan cases_to_replan : list nat) (simulation_time : Q)
    (planned : list (nat * Q)) :
  HeuristicPlanner.plan hself cases_to_plan cases_to_replan simulation_time
  = inr planned ->
  NoDup (map fst planned)
  /\ forall c,
       In c (map fst planned) <-> In c cases_to_plan \/ In c cases_to_replan.
Proof.
  intros E.
  apply heuristic_plan_returns in E as (d & -> & Hnd & Hpi & Hin).
  rewrite plan_sorted_ids.
  set (before := fun y x : nat * Q => Py.ltb (snd x) (snd y)).
  split.
  - rewrite (stable_sort_perm before d). exact Hnd.
  - intros c. rewrite in_map_iff. split.
    + intros [[k p] [<- H]]. apply in_stable_sort in H.
      apply Hin in H. cbn [fst]. tauto.
    + intros H.
      assert (Hsome : HeuristicPlanner.patient_info hself <> None).
      { apply Hpi. destruct H as [H|H]; intros Hnil;
          apply app_eq_nil in Hnil as [-> ->]; destruct H. }
      destruct (in_dec Nat.eq_dec c cases_to_replan) as [Hr|Hr].
      * apply (calculate_priority_returns hself c simulation_time true)
          in Hsome as [p Hp].
        exists (c, p). split; [reflexivity|].
        apply in_stable_sort, Hin. now left.
      * apply (calculate_priority_returns hself c simulation_time false)
          in Hsome as [p Hp].
        exists (c, p). split; [reflexivity|].
        apply in_stable_sort, Hin. right. tauto.
Qed.

Lemma heuristic_plan_one_entry_per_case_witness :
  NoDup (map fst [(2%nat, (100 + 48)%Q); (1%nat, (100 + 48)%Q)])
  /\ forall c,
       In c (map fst [(2%nat, (100 + 48)%Q); (1%nat, (100 + 48)%Q)])
       <-> In c [1%nat; 2%nat] \/ In c [2%nat; 2%nat].
Proof.
  apply (heuristic_plan_one_entry_per_case
           (HeuristicPlanner.mkPlanner (Some ∅) ∅)
           [1%nat; 2%nat] [2%nat; 2%nat] 100).
  vm_compute. reflexivity.
Defined.

Lemma heuristic_plan_in
    (hself : HeuristicPlanner.Planner)
    (cases_to_plan cases_to_replan : list nat) (simulation_time : Q)
    (planned : list (nat * Q)) (c : nat) (t : Q) :
  HeuristicPlanner.plan hself cases_to_plan cases_to_replan simulation_time
  = inr planned ->
  In (c, t) planned
  <-> (In c cases_to_replan
       /\ exists p,
            HeuristicPlanner.calculate_priority hself c simulation_time true
            = inr p
            /\ t = if Py.ltb 100 p then (simulation_time + 24)%Q
                   else (simulation_time + 48)%Q)
      \/ (~ In c cases_to_replan /\ In c cases_to_plan
          /\ exists p,
               HeuristicPlanner.calculate_priority hself c simulation_time
                 false = inr p
               /\ t = if Py.ltb 100 p then (simulation_time + 24)%Q
                      else (simulation_time + 48)%Q).
Proof.
  intros E.
  apply heuristic_plan_returns in E as (d & -> & _ & _ & Hin).
  unfold HeuristicPlanner.plan_sorted. rewrite in_map_iff. split.
  - intros [[k p] [Heq H]]. apply in_stable_sort in H. apply Hin in H.
    inversion Heq; subst.
    destruct H as [[H1 H2]|(H1 & H2 & H3)]; [left|right]; eauto 6.
  - intros [[H1 (p & Hp & ->)]|(H1 & H2 & p & Hp & ->)].
    + exists (c, p). split; [reflexivity|].
      apply in_stable_sort, Hin. now left.
    + exists (c, p). split; [reflexivity|].
      apply in_stable_sort, Hin. right. tauto.
Qed.

(** X12: in a list [HeuristicPlanner.plan] returns, a case is admitted at
    [simulation_time + 24] if its score exceeds 100 and at
    [simulation_time + 48] otherwise, where a case of [cases_to_replan] is
    scored as a replan also when it occurs in [cases_to_plan] too. *)
Theorem heuristic_plan_entry
    (hself : HeuristicPlanner.Planner)
    (cases_to_plan cases_to_replan : list nat) (simulation_time : Q)
    (planned : list (nat * Q)) (c : nat) (t : Q) :
  HeuristicPlanner.plan hself cases_to_plan cases_to_replan simulation_time
  = inr planned ->
  In (c, t) planned
  <-> (In c cases_to_replan
       /\ exists p,
            HeuristicPlanner.calculate_priority hself c simulation_time true
            = inr p
            /\ t = if Py.ltb 100 p then (simulation_time + 24)%Q
                   else (simulation_time + 48)%Q)
      \/ (~ In c cases_to_replan /\ In c cases_to_plan
          /\ exists p,
               HeuristicPlanner.calculate_priority hself c simulation_time
                 false = inr p
               /\ t = if Py.ltb 100 p then (simulation_time + 24)%Q
                      else (simulation_time + 48)%Q).
Proof. apply heuristic_plan_in. Qed.

Lemma heuristic_plan_entry_witness :
  In (2%nat, (100 + 48)%Q) [(2%nat, (100 + 48)%Q); (1%nat, (100 + 48)%Q)]
  <-> (In 2%nat [2%nat]
       /\ exists p,
            HeuristicPlanner.calculate_priority
              (HeuristicPlanner.mkPlanner (Some ∅) ∅) 2%nat 100 true = inr p
            /\ (100 + 48)%Q = if Py.ltb 100 p then (100 + 24)%Q
                              else (100 + 48)%Q)
      \/ (~ In 2%nat [2%nat] /\ In 2%nat [1%nat; 2%nat]
          /\ exists p,
               HeuristicPlanner.calculate_priority
                 (HeuristicPlanner.mkPlanner (Some ∅) ∅) 2%nat 100 false
               = inr p
               /\ (100 + 48)%Q = if Py.ltb 100 p then (100 + 24)%Q
                                 else (100 + 48)%Q).
Proof.
  apply (heuristic_plan_entry (HeuristicPlanner.mkPlanner (Some ∅) ∅)
           [1%nat; 2%nat] [2%nat] 100).
  vm_compute. reflexivity.
Defined.

(** The score is the waiting time plus at most 30 for the diagnosis and 20
    for a replan. *)
Lemma priority_score_bound pi c simulation_time is_replan :
  (HeuristicPlanner.priority_score pi c simulation_time is_replan
   <= simulation_time
      - default simulation_time
          (HeuristicPlanner.arrival_time
             (default (HeuristicPlanner.mkInfo None None) (pi !! c)))
      + 50)%Q.
Proof.
  unfold HeuristicPlanner.priority_score.
  destruct (pi !! c) as [[a d]|];
    cbn [default id HeuristicPlanner.arrival_time HeuristicPlanner.diagnosis].
  - destruct d as [d|]; [destruct (String.eqb d "B1"), (String.eqb d "A2"),
                                   (String.eqb d "A3")|];
      destruct is_replan; lra.
  - destruct is_replan; lra.
Qed.

(** X13: in a list [HeuristicPlanner.plan] returns, every case is admitted
    at [simulation_time + 24] or at [simulation_time + 48]; it is admitted
    before [simulation_time + 48] only if [patient_info] holds an arrival
    time for it more than 50 hours before the call, and a case with no
    arrival time on record is admitted at [simulation_time + 48]. *)
Theorem heuristic_plan_early_admission_needs_wait
    (hself : HeuristicPlanner.Planner)
    (cases_to_plan cases_to_replan : list nat) (simulation_time : Q)
    (planned : list (nat * Q)) (c : nat) (t : Q) :
  HeuristicPlanner.plan hself cases_to_plan cases_to_replan simulation_time
  = inr planned ->
  In (c, t) planned ->
  (t = (simulation_time + 24)%Q \/ t = (simulation_time + 48)%Q)
  /\ ((t < simulation_time + 48)%Q ->
      exists pi info a,
        HeuristicPlanner.patient_info hself = Some pi
        /\ pi !! c = Some info
        /\ HeuristicPlanner.arrival_time info = Some a
        /\ (50 < simulation_time - a)%Q)
  /\ ((forall pi info a,
         HeuristicPlanner.patient_info hself = Some pi ->
         pi !! c = Some info ->
         HeuristicPlanner.arrival_time info <> Some a) ->
      t = (simulation_time + 48)%Q).
Proof.
  intros E H. apply (heuristic_plan_in _ _ _ _ _ _ _ E) in H.
  assert (Hp : exists b p,
             HeuristicPlanner.calculate_priority hself c simulation_time b
             = inr p
             /\ t = if Py.ltb 100 p then (simulation_time + 24)%Q
                    else (simulation_time + 48)%Q).
  { destruct H as [[_ (p & Hp & Ht)]|(_ & _ & p & Hp & Ht)]; eauto. }
  clear H. destruct Hp as (b & p & Hp & ->).
  unfold HeuristicPlanner.calculate_priority in Hp.
  destruct (HeuristicPlanner.patient_info hself) as [pi|]; [|discriminate].
  inversion Hp; subst p. clear Hp.
  pose proof (priority_score_bound pi c simulation_time b) as Hb.
  destruct (Py.ltb 100 _) eqn:Ep.
  - apply ltb_lt in Ep. split; [now left|].
    destruct (pi !! c) as [info|] eqn:Ei;
      cbn [default id HeuristicPlanner.arrival_time] in Hb;
      [|exfalso; lra].
    destruct (HeuristicPlanner.arrival_time info) as [a|] eqn:Ea;
      cbn [default id] in Hb; [|exfalso; lra].
    split.
    + intros _. exists pi, info, a. repeat split; auto. lra.
    + intros Hno. exfalso. apply (Hno pi info a eq_refl Ei Ea).
  - split; [now right|]. split; [intros Hlt; exfalso; lra|reflexivity].
Qed.

Lemma heuristic_plan_early_admission_needs_wait_witness :
  ((100 + 24)%Q = (100 + 24)%Q \/ (100 + 24)%Q = (100 + 48)%Q)
  /\ ((100 + 24 < 100 + 48)%Q ->
      exists pi info a,
        HeuristicPlanner.patient_info
          (HeuristicPlanner.mkPlanner
             (Some {[ 1%nat := HeuristicPlanner.mkInfo (Some 0%Q)
                                 (Some "B1"%string) ]}) ∅) = Some pi
        /\ pi !! 1%nat = Some info
        /\ HeuristicPlanner.arrival_time info = Some a
        /\ (50 < 100 - a)%Q)
  /\ ((forall pi info a,
         HeuristicPlanner.patient_info
           (HeuristicPlanner.mkPlanner
              (Some {[ 1%nat := HeuristicPlanner.mkInfo (Some 0%Q)
                                  (Some "B1"%string) ]}) ∅) = Some pi ->
         pi !! 1%nat = Some info ->
         HeuristicPlanner.arrival_time info <> Some a) ->
      (100 + 24)%Q = (100 + 48)%Q).
Proof.
  apply (heuristic_plan_early_admission_needs_wait
           (HeuristicPlanner.mkPlanner
              (Some {[ 1%nat := HeuristicPlanner.mkInfo (Some 0%Q)
                                  (Some "B1"%string) ]}) ∅)
           [1%nat] [] 100 [(1%nat, (100 + 24)%Q)] 1%nat (100 + 24)%Q).
  - vm_compute. reflexivity.
  - left. reflexivity.
Defined.

(** X14: a list [HeuristicPlanner.plan] returns is ordered by admission
    time: every case admitted at [simulation_time + 24] comes before every
    case admitted at [simulation_time + 48]. *)
Theorem heuristic_plan_ordered_by_time
    (hself : HeuristicPlanner.Planner)
    (cases_to_plan cases_to_replan : list nat) (simulation_time : Q)
    (planned : list (nat * Q)) :
  HeuristicPlanner.plan hself cases_to_plan cases_to_replan simulation_time
  = inr planned ->
  StronglySorted Qle (map snd planned).
Proof.
  intros E.
  apply heuristic_plan_returns in E as (d & -> & _).
  unfold HeuristicPlanner.plan_sorted.
  set (before := fun y x : nat * Q => Py.ltb (snd x) (snd y)).
  assert (Hs : StronglySorted (fun a b => before b a = false)
                 (stable_sort before d)).
  { apply stable_sort_sorted; unfold before.
    - intros x y H. apply ltb_lt in H. apply ltb_ge. lra.
    - intros x y z H1 H2. apply ltb_ge in H1, H2. apply ltb_ge. lra. }
  induction Hs as [|[k p] l Hl IH Hall]; cbn [map snd]; constructor.
  - exact IH.
  - rewrite Forall_map. rewrite Forall_map.
    eapply Forall_impl; [exact Hall|].
    intros [k' p'] H. unfold before in H. cbn [snd] in *.
    apply ltb_ge in H.
    destruct (Py.ltb 100 p) eqn:E; destruct (Py.ltb 100 p') eqn:E';
      cbn [snd]; try lra.
    apply ltb_ge in E. apply ltb_lt in E'. lra.
Qed.

Lemma heuristic_plan_ordered_by_time_witness :
  StronglySorted Qle
    (map snd [(1%nat, (100 + 24)%Q); (2%nat, (100 + 48)%Q)]).
Proof.
  apply (heuristic_plan_ordered_by_time
           (HeuristicPlanner.mkPlanner
              (Some {[ 1%nat := HeuristicPlanner.mkInfo (Some 0%Q)
                                  (Some "B1"%string) ]}) ∅)
           [2%nat; 1%nat] [] 100).
  vm_compute. reflexivity.
Defined.

(** X24: on an instance as [__init__] builds it, or any other without a
    [patient_info] attribute, [HeuristicPlanner.plan] raises
    [AttributeError] as soon as either list holds a case, and returns the
    empty list when both are empty. *)
Theorem heuristic_plan_raises_as_built
    (hself : HeuristicPlanner.Planner)
    (cases_to_plan cases_to_replan : list nat) (simulation_time : Q) :
  HeuristicPlanner.patient_info hself = None ->
  HeuristicPlanner.plan hself cases_to_plan cases_to_replan simulation_time
  = match cases_to_plan ++ cases_to_replan with
    | [] => inr []
    | _ :: _ => inl (HeuristicPlanner.AttributeError "patient_info")
    end.
Proof.
  intros Hnone. unfold HeuristicPlanner.plan.
  destruct cases_to_plan as [|c ps];
    cbn [HeuristicPlanner.score_cases app].
  - destruct cases_to_replan as [|c rs];
      cbn [HeuristicPlanner.score_cases]; [reflexivity|].
    unfold HeuristicPlanner.calculate_priority. now rewrite Hnone.
  - unfold HeuristicPlanner.calculate_priority. now rewrite Hnone.
Qed.

Lemma heuristic_plan_raises_as_built_witness :
  HeuristicPlanner.plan HeuristicPlanner.init [1%nat] [2%nat] 100
  = match [1%nat] ++ [2%nat] with
    | [] => inr []
    | _ :: _ => inl (HeuristicPlanner.AttributeError "patient_info")
    end.
Proof.
  apply (heuristic_plan_raises_as_built HeuristicPlanner.init
           [1%nat] [2%nat] 100).
  reflexivity.
Defined.

(** ** The checkpoints of the optimized schedule *)

Lemma floor_unique (z : Z) (x : Q) :
  (inject_Z z <= x)%Q -> (x < inject_Z z + 1)%Q -> Qfloor x = z.
Proof.
  intros Hle Hlt.
  assert (H1 : z <= Qfloor x).
  { apply Qfloor_resp_le in Hle. now rewrite Qfloor_Z in Hle. }
  assert (H2 : Qfloor x < z + 1).
  { rewrite Zlt_Qlt, inject_Z_plus. change (inject_Z 1) with 1%Q.
    eapply Qle_lt_trans; [apply Qfloor_le|exact Hlt]. }
  lia.
Qed.

Lemma floordiv_bounds (x : Q) :
  (24 * inject_Z (Py.floordiv x 24) <= x)%Q
  /\ (x < 24 * inject_Z (Py.floordiv x 24) + 24)%Q.
Proof.
  unfold Py.floordiv.
  pose proof (Qfloor_le (x / 24)) as H1.
  pose proof (Qlt_floor (x / 24)) as H2.
  rewrite inject_Z_plus in H2. change (inject_Z 1) with 1%Q in H2.
  assert (Hx : (x == 24 * (x / 24))%Q) by (field).
  set (y := (x / 24)%Q) in *. split; lra.
Qed.

Lemma floordiv_unique (z : Z) (x : Q) :
  (24 * inject_Z z <= x)%Q -> (x < 24 * inject_Z z + 24)%Q ->
  Py.floordiv x 24 = z.
Proof.
  intros H1 H2. unfold Py.floordiv.
  assert (Hx : (x == 24 * (x / 24))%Q) by (field).
  set (y := (x / 24)%Q) in *. apply floor_unique; lra.
Qed.

(** The hour of day is the whole part of the time past midnight. *)
Lemma hour_of_day_spec (x : Q) (h : Z) :
  hour_of_day x = h
  <-> (24 * inject_Z (Py.floordiv x 24) + inject_Z h <= x)%Q
      /\ (x < 24 * inject_Z (Py.floordiv x 24) + inject_Z h + 1)%Q.
Proof.
  unfold hour_of_day, Py.int, Py.mod_.
  destruct (floordiv_bounds x) as [H1 H2].
  assert (Hb : Qle_bool 0 (x - 24 * inject_Z (Py.floordiv x 24)) = true)
    by (apply Qle_bool_iff; lra).
  rewrite Hb. split.
  - intros <-.
    pose proof (Qfloor_le (x - 24 * inject_Z (Py.floordiv x 24))) as H3.
    pose proof (Qlt_floor (x - 24 * inject_Z (Py.floordiv x 24))) as H4.
    rewrite inject_Z_plus in H4. change (inject_Z 1) with 1%Q in H4.
    split; lra.
  - intros [H3 H4]. apply floor_unique; lra.
Qed.

Lemma day_of_week_floordiv (x : Q) :
  day_of_week x = Py.floordiv x 24 mod 7.
Proof.
  unfold day_of_week. apply int_of_nonneg. apply Z.mod_pos_bound. lia.
Qed.

Lemma in_range (d : Z) (n : nat) : In d (Py.range n) -> 0 <= d < Z.of_nat n.
Proof.
  unfold Py.range. intros H. apply in_map_iff in H as [k [<- Hk]].
  apply in_seq in Hk. lia.
Qed.

(** An entry of the schedule comes from one of the fourteen days and one of
    its two checkpoints. *)
Lemma in_schedule_body_day gc simulation_time r t n :
  In (r, t, n) (ScheduleBody.schedule gc simulation_time) ->
  hour_of_day simulation_time = 18
  /\ exists d, 0 <= d < 14
       /\ ((t = (simulation_time + inject_Z (24 - 18) + inject_Z (d * 24) + 8)%Q
            /\ In (r, n)
                 (ScheduleBody.morning_res
                    ((day_of_week simulation_time + d + 1) mod 7)))
           \/ (t = (simulation_time + inject_Z (24 - 18) + inject_Z (d * 24)
                    + 14)%Q
               /\ In (r, n)
                    (ScheduleBody.afternoon_res
                       ((day_of_week simulation_time + d + 1) mod 7)))).
Proof.
  unfold ScheduleBody.schedule.
  destruct (hour_of_day simulation_time =? 18) eqn:Eh; cbn [negb];
    [|intros []].
  apply Z.eqb_eq in Eh. rewrite Eh. intros H. split; [reflexivity|].
  apply in_flat_map in H as [d [Hd H]]. apply in_range in Hd.
  exists d. split; [exact Hd|].
  unfold ScheduleBody.schedule_day in H. apply in_app_or in H.
  destruct H as [H|H]; apply in_apply_block in H as (-> & Hin & _);
    [left|right]; now split.
Qed.

(** The checkpoint of day offset [d] falls on the day after the call plus
    [d], at hour [8 + k] for the offset [8 + k] from midnight. *)
Lemma checkpoint_day_and_hour (simulation_time : Q) (d k : Z) :
  hour_of_day simulation_time = 18 -> 0 <= k < 16 ->
  let t := (simulation_time + inject_Z (24 - 18) + inject_Z (d * 24)
            + inject_Z k)%Q in
  hour_of_day t = k
  /\ day_of_week t = (day_of_week simulation_time + d + 1) mod 7.
Proof.
  intros Hh Hk. cbv zeta.
  apply hour_of_day_spec in Hh as [H1 H2].
  set (q := Py.floordiv simulation_time 24) in *.
  set (t := (simulation_time + inject_Z (24 - 18) + inject_Z (d * 24)
             + inject_Z k)%Q).
  assert (Hk1 : (0 <= inject_Z k)%Q)
    by (change 0%Q with (inject_Z 0); rewrite <- Zle_Qle; lia).
  assert (Hk2 : (inject_Z k <= 15)%Q)
    by (change 15%Q with (inject_Z 15); rewrite <- Zle_Qle; lia).
  assert (Hd : (inject_Z (d * 24) == 24 * inject_Z d)%Q).
  { rewrite inject_Z_mult. change (inject_Z 24) with 24%Q. ring. }
  assert (Hq : Py.floordiv t 24 = q + d + 1).
  { apply floordiv_unique; unfold t; rewrite !inject_Z_plus;
      change (inject_Z (24 - 18)) with 6%Q; change (inject_Z 18) with 18%Q in *;
      change (inject_Z 1) with 1%Q; lra. }
  split.
  - apply hour_of_day_spec. rewrite Hq. unfold t. rewrite !inject_Z_plus.
    change (inject_Z (24 - 18)) with 6%Q. change (inject_Z 18) with 18%Q in *.
    change (inject_Z 1) with 1%Q. split; lra.
  - rewrite !day_of_week_floordiv, Hq. fold q.
    replace (q mod 7 + d + 1) with (q mod 7 + (d + 1)) by lia.
    rewrite Zplus_mod_idemp_l. f_equal. lia.
Qed.

(** X15: every triple the optimized [schedule] emits takes effect at 8:00
    or at 14:00 and carries the count of the morning, respectively
    afternoon, table of the weekday class of the very day it takes effect
    on: weekday counts from Monday to Friday, weekend counts on Saturday and
    Sunday. *)
Theorem schedule_table_matches_effective_day
    (get_current : Q -> ResourceType -> Z) (simulation_time : Q)
    (r : ResourceType) (t : Q) (n : Z) :
  In (r, t, n) (ScheduleBody.schedule get_current simulation_time) ->
  (hour_of_day t = 8
   /\ In (r, n) (ScheduleBody.morning_res (day_of_week t)))
  \/ (hour_of_day t = 14
      /\ In (r, n) (ScheduleBody.afternoon_res (day_of_week t))).
Proof.
  intros H.
  apply in_schedule_body_day in H as (Hh & d & Hd & [[-> Hin]|[-> Hin]]).
  - left.
    destruct (checkpoint_day_and_hour simulation_time d 8 Hh) as [H1 H2];
      [lia|].
    cbv zeta in H1, H2. change (inject_Z 8) with 8%Q in *.
    rewrite H1, H2. now split.
  - right.
    destruct (checkpoint_day_and_hour simulation_time d 14 Hh) as [H1 H2];
      [lia|].
    cbv zeta in H1, H2. change (inject_Z 14) with 14%Q in *.
    rewrite H1, H2. now split.
Qed.

Lemma schedule_table_matches_effective_day_witness :
  (hour_of_day 296 = 8
   /\ In (OR, 2) (ScheduleBody.morning_res (day_of_week 296)))
  \/ (hour_of_day 296 = 14
      /\ In (OR, 2) (ScheduleBody.afternoon_res (day_of_week 296))).
Proof.
  apply (schedule_table_matches_effective_day OptimizedPlanner2.get_current
           18 OR 296 2).
  vm_compute. do 50 right. left. reflexivity.
Defined.

(** X16: every triple the optimized [schedule] emits takes effect at least
    14 hours and at most 332 hours after the call. *)
Theorem schedule_effective_time_window
    (get_current : Q -> ResourceType -> Z) (simulation_time : Q)
    (r : ResourceType) (t : Q) (n : Z) :
  In (r, t, n) (ScheduleBody.schedule get_current simulation_time) ->
  (simulation_time + 14 <= t)%Q /\ (t <= simulation_time + 332)%Q.
Proof.
  intros H.
  apply in_schedule_body_day in H as (_ & d & Hd & H).
  assert (H0 : (0 <= inject_Z (d * 24))%Q)
    by (change 0%Q with (inject_Z 0); rewrite <- Zle_Qle; lia).
  assert (H1 : (inject_Z (d * 24) <= 312)%Q)
    by (change 312%Q with (inject_Z 312); rewrite <- Zle_Qle; lia).
  change (inject_Z (24 - 18)) with 6%Q in H.
  destruct H as [[-> _]|[-> _]]; split; lra.
Qed.

Lemma schedule_effective_time_window_witness :
  (18 + 14 <= 176)%Q /\ (176 <= 18 + 332)%Q.
Proof.
  apply (schedule_effective_time_window OptimizedPlanner2.get_current
           18 OR 176 3).
  vm_compute. left. reflexivity.
Defined.

Lemma apply_block_beyond gc cutoff time table :
  (cutoff <= time)%Q ->
  length (ScheduleBody.apply_block gc cutoff time table) = length table.
Proof.
  intros H. apply ltb_ge in H. unfold ScheduleBody.apply_block. rewrite H.
  induction table as [|[r c] table IH]; cbn [flat_map length app];
    [reflexivity|].
  now rewrite IH.
Qed.

Lemma schedule_day_beyond gc day_of_week simulation_time d :
  6 <= d ->
  length (ScheduleBody.schedule_day gc day_of_week
            (simulation_time + inject_Z (24 - 18)) (simulation_time + 158) d)
  = 10%nat.
Proof.
  intros Hd. unfold ScheduleBody.schedule_day.
  assert (H : (144 <= inject_Z (d * 24))%Q)
    by (change 144%Q with (inject_Z 144); rewrite <- Zle_Qle; lia).
  change (inject_Z (24 - 18)) with 6%Q.
  rewrite length_app, !apply_block_beyond by lra.
  unfold ScheduleBody.morning_res, ScheduleBody.afternoon_res.
  now destruct (_ <? 5).
Qed.

(** X17: called at hour 18 of any day, [schedule] of
    [OptimizedPlanner2.0.py] returns exactly 80 triples: nothing for the
    first six days of its horizon, and all five resource types at both
    checkpoints of each of the remaining eight days. *)
Theorem schedule2_emits_80_triples (self : Planner) (simulation_time : Q) :
  hour_of_day simulation_time = 18 ->
  length (snd (OptimizedPlanner2.schedule self simulation_time)) = 80%nat.
Proof.
  intros Hh. cbn [snd OptimizedPlanner2.schedule].
  unfold ScheduleBody.schedule. rewrite Hh. cbn [Z.eqb Pos.eqb negb].
  change (Py.range 14) with [0; 1; 2; 3; 4; 5; 6; 7; 8; 9; 10; 11; 12; 13].
  cbn [flat_map].
  rewrite !(schedule2_first_days_empty simulation_time) by lia.
  cbn [app]. rewrite !length_app, !schedule_day_beyond by lia.
  reflexivity.
Qed.

Lemma schedule2_emits_80_triples_witness :
  length (snd (OptimizedPlanner2.schedule fresh_planner (37 # 2))) = 80%nat.
Proof.
  apply (schedule2_emits_80_triples fresh_planner (37 # 2)).
  vm_compute. reflexivity.
Defined.

Lemma apply_block_ext gc1 gc2 cutoff time table :
  (forall t r, gc1 t r = gc2 t r) ->
  ScheduleBody.apply_block gc1 cutoff time table
  = ScheduleBody.apply_block gc2 cutoff time table.
Proof.
  intros H. unfold ScheduleBody.apply_block.
  apply flat_map_ext. intros [r c]. now rewrite H.
Qed.

Lemma schedule_body_ext gc1 gc2 simulation_time :
  (forall t r, gc1 t r = gc2 t r) ->
  ScheduleBody.schedule gc1 simulation_time
  = ScheduleBody.schedule gc2 simulation_time.
Proof.
  intros H. unfold ScheduleBody.schedule.
  destruct (negb _); [reflexivity|].
  apply flat_map_ext. intros d. unfold ScheduleBody.schedule_day.
  now rewrite !(apply_block_ext gc1 gc2).
Qed.

(** X18: when the lookup of the simulation's schedule is unavailable, the
    attribute being absent or every call raising, [schedule] of
    [OptimizedPlanner.py] falls back to the maxima and returns exactly what
    [schedule] of [OptimizedPlanner2.0.py] returns: nothing inside the near
    horizon. *)
Theorem schedule_fallback_without_simulator
    (simulator : option (ResourceType -> Q -> option Z))
    (self : Planner) (simulation_time : Q) :
  (forall f r t, simulator = Some f -> f r t = None) ->
  OptimizedPlanner.schedule simulator self simulation_time
  = OptimizedPlanner2.schedule self simulation_time.
Proof.
  intros H. unfold OptimizedPlanner.schedule, OptimizedPlanner2.schedule.
  f_equal. apply schedule_body_ext. intros t r.
  unfold OptimizedPlanner.get_current, OptimizedPlanner2.get_current.
  destruct simulator as [f|]; [|reflexivity].
  now rewrite (H f r t eq_refl).
Qed.

Lemma schedule_fallback_without_simulator_witness :
  OptimizedPlanner.schedule (Some (fun _ _ => None)) fresh_planner 18
  = OptimizedPlanner2.schedule fresh_planner 18.
Proof.
  apply (schedule_fallback_without_simulator
           (Some (fun _ _ => None)) fresh_planner 18).
  intros f r t Hf. inversion Hf; subst. reflexivity.
Defined.

(** ** [report] *)

(** X19: [report] of [OptimizedPlanner.py] records the diagnosis that
    [data] carries under the case it is called for and touches nothing else:
    every other diagnosis and all first-plan and last-replan times stay as
    they were; with [data] absent, empty or without the key, the planner is
    unchanged. *)
Theorem report1_records_diagnosis (self : Planner) (case_id c : nat)
    (data : option (gmap string string)) :
  let self' := OptimizedPlanner.report self case_id data in
  patient_first_plan self' = patient_first_plan self
  /\ last_replanned self' = last_replanned self
  /\ patient_diagnoses self' !! c
     = match data ≫= (fun d => d !! "diagnosis"%string) with
       | Some v => if decide (c = case_id) then Some v
                   else patient_diagnoses self !! c
       | None => patient_diagnoses self !! c
       end.
Proof.
  cbv zeta. unfold OptimizedPlanner.report.
  destruct data as [d|]; cbn [mbind option_bind]; [|auto].
  destruct (decide (d = ∅)) as [->|Hne].
  - rewrite lookup_empty. auto.
  - destruct (d !! "diagnosis"%string) as [v|]; [|auto].
    cbn [patient_first_plan last_replanned patient_diagnoses].
    do 2 (split; [reflexivity|]).
    destruct (decide (c = case_id)) as [->|Hc].
    + apply lookup_insert_eq.
    + now rewrite lookup_insert_ne by congruence.
Qed.

(** X20: [report] of [OptimizedPlanner2.0.py] raises [KeyError] exactly
    when the element carries a non-empty [data] dictionary without the key
    ["diagnosis"]; with no element, no data or an empty dictionary it
    returns. *)
Theorem report2_raises_on_missing_key (self : Planner) (case_id : nat)
    (element : option OptimizedPlanner2.Element) :
  (exists e, OptimizedPlanner2.report self case_id element = inl e)
  <-> exists el d,
        element = Some el /\ OptimizedPlanner2.data el = Some d
        /\ d <> ∅ /\ d !! "diagnosis"%string = None.
Proof.
  unfold OptimizedPlanner2.report. split.
  - intros [e H].
    destruct element as [el|]; [|discriminate].
    destruct (OptimizedPlanner2.data el) as [d|] eqn:Ed; [|discriminate].
    destruct (decide (d = ∅)) as [->|Hne]; [discriminate|].
    destruct (d !! "diagnosis"%string) as [v|] eqn:Ev.
    + destruct (String.eqb v ""); discriminate.
    + exists el, d. auto.
  - intros (el & d & -> & Hd & Hne & Hk). rewrite Hd.
    destruct (decide (d = ∅)) as [->|_]; [contradiction|].
    rewrite Hk. eauto.
Qed.

(** X21: [report] of [OptimizedPlanner2.0.py] never stores an empty
    diagnosis and changes no first-plan or last-replan time: if no case has
    the empty string on record before a call that returns, none has after
    it, and a non-empty diagnosis the element carries is on record for the
    case afterwards. *)
Theorem report2_keeps_diagnoses_nonempty (self self' : Planner)
    (case_id : nat) (element : option OptimizedPlanner2.Element) :
  OptimizedPlanner2.report self case_id element = inr self' ->
  (forall c v, patient_diagnoses self !! c = Some v -> v <> ""%string) ->
  (forall c v, patient_diagnoses self' !! c = Some v -> v <> ""%string)
  /\ patient_first_plan self' = patient_first_plan self
  /\ last_replanned self' = last_replanned self
  /\ (forall el d v,
        element = Some el -> OptimizedPlanner2.data el = Some d ->
        d !! "diagnosis"%string = Some v -> v <> ""%string ->
        patient_diagnoses self' !! case_id = Some v).
Proof.
  unfold OptimizedPlanner2.report. intros H Hinv.
  destruct element as [el|].
  2:{ inversion H; subst. repeat split; auto. discriminate. }
  destruct (OptimizedPlanner2.data el) as [d|] eqn:Ed.
  2:{ inversion H; subst. repeat split; auto.
      intros el' d' v Hel. inversion Hel; subst. congruence. }
  destruct (decide (d = ∅)) as [->|Hne].
  { inversion H; subst. repeat split; auto.
    intros el' d' v Hel Hd' Hv. inversion Hel; subst.
    rewrite Ed in Hd'. inversion Hd'; subst. now rewrite lookup_empty in Hv. }
  destruct (d !! "diagnosis"%string) as [v|] eqn:Ev; [|discriminate].
  destruct (String.eqb v "") eqn:Eb.
  - inversion H; subst. repeat split; auto.
    intros el' d' v' Hel Hd' Hv Hnz. inversion Hel; subst.
    rewrite Ed in Hd'. inversion Hd'; subst. rewrite Ev in Hv.
    inversion Hv; subst. apply String.eqb_eq in Eb. contradiction.
  - inversion H; subst. cbn [patient_diagnoses patient_first_plan last_replanned].
    apply String.eqb_neq in Eb. repeat split; auto.
    + intros c v' Hc. destruct (decide (case_id = c)) as [->|Hcne].
      * rewrite lookup_insert_eq in Hc. inversion Hc; subst. exact Eb.
      * rewrite lookup_insert_ne in Hc by assumption. eapply Hinv; eauto.
    + intros el' d' v' Hel Hd' Hv _. inversion Hel; subst.
      rewrite Ed in Hd'. inversion Hd'; subst. rewrite Ev in Hv.
      inversion Hv; subst. apply lookup_insert_eq.
Qed.

Lemma report2_keeps_diagnoses_nonempty_witness :
  (forall c v,
      patient_diagnoses (mkPlanner {[ 1%nat := "A3"%string ]} ∅ ∅) !! c = Some v ->
      v <> ""%string)
  /\ patient_first_plan (mkPlanner {[ 1%nat := "A3"%string ]} ∅ ∅)
     = patient_first_plan fresh_planner
  /\ last_replanned (mkPlanner {[ 1%nat := "A3"%string ]} ∅ ∅)
     = last_replanned fresh_planner
  /\ (forall el d v,
        Some (OptimizedPlanner2.mkElement
                (Some {[ "diagnosis"%string := "A3"%string ]})) = Some el ->
        OptimizedPlanner2.data el = Some d ->
        d !! "diagnosis"%string = Some v -> v <> ""%string ->
        patient_diagnoses (mkPlanner {[ 1%nat := "A3"%string ]} ∅ ∅) !! 1%nat
        = Some v).
Proof.
  apply (report2_keeps_diagnoses_nonempty fresh_planner
           (mkPlanner {[ 1%nat := "A3"%string ]} ∅ ∅) 1%nat
           (Some (OptimizedPlanner2.mkElement
                    (Some {[ "diagnosis"%string := "A3"%string ]})))).
  - vm_compute. reflexivity.
  - intros c v H. cbn in H. rewrite lookup_empty in H. discriminate.
Defined.

(** X22: a diagnosis that [report] has put on record decides the slot of
    the case at the next [plan] call.  At [z] whole hours the call returns,
    and the case, planned last in [OptimizedPlanner.py] or first in
    [OptimizedPlanner2.0.py], is admitted at [z + 24] plus the offset of the
    priority that diagnosis has on the day of the call. *)
Theorem report_then_plan (self : Planner) (c : nat) (d : gmap string string)
    (v : string) (others cases_to_replan : list nat) (z : Z) :
  d !! "diagnosis"%string = Some v ->
  v <> ""%string ->
  let t := z + 24
           + admission_offset
               (new_priority (day_of_week (inject_Z z)) (Some v)) in
  (exists self' replanned,
      OptimizedPlanner.plan_parts
        (OptimizedPlanner.report self c (Some d))
        (others ++ [c]) cases_to_replan (inject_Z z)
      = (self', inr ([(c, t)], replanned)))
  /\ (exists self1 self' rest replanned,
         OptimizedPlanner2.report self c
           (Some (OptimizedPlanner2.mkElement (Some d))) = inr self1
         /\ OptimizedPlanner2.plan_parts self1 (c :: others) cases_to_replan
              (inject_Z z)
            = (self', inr ((c, t) :: rest, replanned))).
Proof.
  intros Hd Hv. cbv zeta.
  assert (Hne : d <> ∅) by (intros ->; now rewrite lookup_empty in Hd).
  split.
  - set (self1 := OptimizedPlanner.report self c (Some d)).
    assert (Hdiag : patient_diagnoses self1 !! c = Some v).
    { unfold self1, OptimizedPlanner.report.
      destruct (decide (d = ∅)); [contradiction|]. rewrite Hd.
      apply lookup_insert_eq. }
    destruct (plan_parts_nonempty V1 self1 (others ++ [c]) cases_to_replan
                (inject_Z z)) as (self' & fresh & replanned & E);
      [now destruct others|].
    pose proof (plan_parts_success V1 _ _ _ _ _ _ _ E)
      as (_ & _ & _ & _ & _ & Hids & _).
    cbn [new_case_ids] in Hids. rewrite last_last in Hids.
    destruct fresh as [|[c' t'] [|x fresh]]; try discriminate.
    cbn [map fst] in Hids. inversion Hids; subst c'.
    pose proof (first_new_case_admission_aux V1 _ _ _ _ _ _ _ _ _ _
                  E eq_refl) as Ht.
    rewrite Hdiag in Ht. subst t'.
    cbn [plan_parts_of] in E. eauto.
  - assert (Hr : OptimizedPlanner2.report self c
                   (Some (OptimizedPlanner2.mkElement (Some d)))
                 = inr (mkPlanner (<[c := v]> (patient_diagnoses self))
                          (patient_first_plan self) (last_replanned self))).
    { unfold OptimizedPlanner2.report. cbn [OptimizedPlanner2.data].
      destruct (decide (d = ∅)); [contradiction|]. rewrite Hd.
      apply String.eqb_neq in Hv. now rewrite Hv. }
    set (self1 := mkPlanner (<[c := v]> (patient_diagnoses self))
                    (patient_first_plan self) (last_replanned self)) in *.
    assert (Hdiag : patient_diagnoses self1 !! c = Some v)
      by apply lookup_insert_eq.
    destruct (plan_parts_nonempty V2 self1 (c :: others) cases_to_replan
                (inject_Z z)) as (self' & fresh & replanned & E);
      [discriminate|].
    pose proof (plan_parts_success V2 _ _ _ _ _ _ _ E)
      as (_ & _ & _ & _ & _ & Hids & _).
    cbn [new_case_ids] in Hids.
    destruct fresh as [|[c' t'] rest]; [discriminate|].
    cbn [map fst] in Hids. injection Hids as Hc _. subst c'.
    pose proof (first_new_case_admission_aux V2 _ _ _ _ _ _ _ _ _ _
                  E eq_refl) as Ht.
    rewrite Hdiag in Ht. subst t'.
    cbn [plan_parts_of] in E. exists self1, self', rest, replanned.
    split; [exact Hr|exact E].
Qed.

Lemma report_then_plan_witness :
  (exists self' replanned,
      OptimizedPlanner.plan_parts
        (OptimizedPlanner.report fresh_planner 1%nat
           (Some {[ "diagnosis"%string := "A3"%string ]}))
        ([] ++ [1%nat]) [] (inject_Z 100)
      = (self', inr ([(1%nat,
                       100 + 24
                       + admission_offset
                           (new_priority (day_of_week (inject_Z 100))
                              (Some "A3"%string)))], replanned)))
  /\ (exists self1 self' rest replanned,
         OptimizedPlanner2.report fresh_planner 1%nat
           (Some (OptimizedPlanner2.mkElement
                    (Some {[ "diagnosis"%string := "A3"%string ]})))
         = inr self1
         /\ OptimizedPlanner2.plan_parts self1 (1%nat :: []) []
              (inject_Z 100)
            = (self', inr ((1%nat,
                            100 + 24
                            + admission_offset
                                (new_priority (day_of_week (inject_Z 100))
                                   (Some "A3"%string))) :: rest, replanned))).
Proof.
  apply (report_then_plan fresh_planner 1%nat
           {[ "diagnosis"%string := "A3"%string ]} "A3"%string [] [] 100).
  - reflexivity.
  - discriminate.
Defined.

(** X23: when the cases that pass the cooldown test are no more than the
    cap, the replanning loop of a call that returns emits every one of them,
    as often as it occurs in [cases_to_replan]: the emitted case ids are a
    rearrangement of the survivors. *)
Theorem replans_complete_under_cap (v : version) (self self' : Planner)
    (cases_to_plan cases_to_replan : list nat) (simulation_time : Q)
    (fresh replanned : list plan_entry) :
  plan_parts_of v self cases_to_plan cases_to_replan simulation_time
  = (self', inr (fresh, replanned)) ->
  (length (List.filter (cooldown_passed self simulation_time) cases_to_replan)
   <= replan_cap v)%nat ->
  map fst replanned
  ≡ₚ List.filter (cooldown_passed self simulation_time) cases_to_replan.
Proof.
  intros E Hcap.
  apply plan_parts_success in E as (cands & td & Hs & _ & -> & _).
  apply select_replans_ids in Hs.
  unfold cooldown_passed in Hs.
  rewrite track_first_plan_last_replanned in Hs.
  fold (cooldown_passed self simulation_time) in Hs.
  rewrite <- Hs in *. rewrite length_map in Hcap.
  rewrite replan_entries_ids.
  rewrite take_ge by (rewrite length_stable_sort; unfold candidate in *; lia).
  apply Permutation_map. apply stable_sort_perm.
Qed.

Lemma replans_complete_under_cap_witness :
  map fst [(2%nat, 124); (3%nat, 125)]
  ≡ₚ List.filter (cooldown_passed fresh_planner 100) [2%nat; 3%nat].
Proof.
  apply (replans_complete_under_cap V2 fresh_planner
           (fst (plan_parts_of V2 fresh_planner [1%nat] [2%nat; 3%nat] 100))
           [1%nat] [2%nat; 3%nat] 100 [(1%nat, 128)]).
  - vm_compute. reflexivity.
  - vm_compute. lia.
Defined.
